(** * LBANN layer execution engine: identity / rectified-linear activations,
      the dropout regularizer and the covariance layer's dimension check.

    Shallow embedding of
      - include/lbann/layers/activations/id.hpp   (id_layer, relu_layer),
      - include/lbann/layers/regularizers/dropout.hpp (dropout),
      - the covariance layer implementation header (covariance_layer).

    Numbers.  [DataType] and [EvalType] are floating-point types in the
    source.  They are embedded as exact rationals [Q]: the properties below
    are about which value is selected, multiplied or accumulated where, not
    about rounding.  Structural equalities are Leibniz equalities on [Q];
    numerical ones use [==]. *)

From Stdlib Require Import ZArith QArith Qminmax Lia Lqa.
From stdpp Require Import base gmap list strings pretty.

Open Scope Q_scope.

(** ** Scalars *)

Abbreviation DataType := Q.
Abbreviation EvalType := Q.

(** The C++ comparison [x < y] on scalars. *)
Definition Qltb (x y : Q) : bool := negb (Qle_bool y x).

(** ** Entrywise activation layers (id.hpp) *)

Module id_layer.

(** [DataType activation_function(DataType z) { return z; }] *)
Definition activation_function (z : DataType) : DataType := z.

(** [DataType activation_function_gradient(DataType z) { return z; }] *)
Definition activation_function_gradient (z : DataType) : DataType := z.

End id_layer.

Module relu_layer.

(** [return x > DataType(0) ? x : DataType(0);] *)
Definition activation (x : DataType) : DataType :=
  if Qltb 0 x then x else 0.

(** [return x > DataType(0) ? DataType(1) : DataType(0);] *)
Definition activation_derivative (x : DataType) : DataType :=
  if Qltb 0 x then 1 else 0.

End relu_layer.


(** ** Failure

    [LBANN_ERROR], a failed [CHECK_CUDNN] and the errors raised by the matrix
    library all abort the enclosing step with a message. *)

Inductive result (A : Type) : Type :=
  | Ok (a : A)
  | Error (msg : string).
Arguments Ok {A} a.
Arguments Error {A} msg.

#[global] Instance result_ret : MRet result := @Ok.

#[global] Instance result_bind : MBind result := fun A B k m =>
  match m with
  | Ok a => k a
  | Error msg => Error msg
  end.

(** ** Execution mode *)

(** Modelled from the spec: the enumeration [execution_mode] is declared
    outside the files at hand; the spec gives it as a process-wide
    enumeration with a training member, and the layers only compare against
    [training]. *)
Inductive execution_mode : Type :=
  | training
  | validation
  | testing
  | prediction
  | invalid.

Definition is_training (m : execution_mode) : bool :=
  match m with
  | training => true
  | _ => false
  end.

(** ** Matrices over a shared store

    The matrix library is outside the repository; its operations follow the
    contract the spec gives for the distributed tensor view (4.1) and the
    library's documented meaning.  One process of the grid is modelled, so a
    distributed matrix and its local part coincide.  A matrix is a handle
    (dimensions, leading dimension, view kind) on a buffer of the store;
    several handles may name the same buffer, which is how views alias
    storage.  A buffer holds the [Height * Width] entries its handle
    addresses, column by column. *)

Definition loc := nat.
Abbreviation heap := (gmap nat (list DataType)).

Inductive ViewType : Type :=
  | OWNER
  | VIEW
  | LOCKED_VIEW.

Record Matrix : Type := mkMatrix {
  Height : nat;
  Width : nat;
  LDim : nat;
  Buffer : loc;
  viewType : ViewType
}.

Definition Locked (M : Matrix) : bool :=
  match viewType M with
  | LOCKED_VIEW => true
  | _ => false
  end.

Definition Viewing (M : Matrix) : bool :=
  match viewType M with
  | OWNER => false
  | _ => true
  end.

Definition same_dims (A B : Matrix) : bool :=
  (Height A =? Height B)%nat && (Width A =? Width B)%nat.

(** [A.LockedBuffer()]: the entries, for reading. *)
Definition LockedBuffer (A : Matrix) (h : heap) : result (list DataType) :=
  match h !! Buffer A with
  | Some l => Ok l
  | None => Error "buffer not allocated"
  end.

(** [A.Buffer()]: the buffer, for writing.  Accessing a locked view as
    mutable is an error (spec, 4.1). *)
Definition MutableBuffer (A : Matrix) : result loc :=
  if Locked A then Error "cannot return non-const buffer of locked matrix"
  else Ok (Buffer A).

(** Storing entries through [A.Buffer()]. *)
Definition store (A : Matrix) (l : list DataType) (h : heap) : result heap :=
  buf ← MutableBuffer A;
  Ok (<[buf := l]> h).

(** [El::LockedView(B, A)]: [B] becomes a read-only alias of [A]'s storage;
    nothing is copied and the store is not touched. *)
Definition LockedView (B A : Matrix) : Matrix :=
  {| Height := Height A; Width := Width A; LDim := LDim A;
     Buffer := Buffer A; viewType := LOCKED_VIEW |}.

(** [A.Resize(height, width)].  The same dimensions change nothing; a view
    cannot change size; an owner keeps its buffer, takes a new leading
    dimension only when it must grow, and the buffer then holds
    [height * width] entries (what the new ones are is left open by the
    library: the model pads with zero). *)
Definition Resize (height width : nat) (A : Matrix) (h : heap)
  : result (Matrix * heap) :=
  if (Height A =? height)%nat && (Width A =? width)%nat then Ok (A, h)
  else if Viewing A then Error "tried to change the size of a view"
  else
    l ← LockedBuffer A h;
    let reallocate := (LDim A <? height)%nat || (Width A <? width)%nat in
    let A' := {| Height := height; Width := width;
                 LDim := if reallocate then Nat.max height 1 else LDim A;
                 Buffer := Buffer A; viewType := viewType A |} in
    Ok (A', <[Buffer A := resize (height * width) 0 l]> h).

(** [El::EntrywiseMap(A, func)], for a [func] that also steps a state [S]
    (here the random generator): entries are visited in storage order. *)
Fixpoint entrywise {S : Type} (func : DataType -> S -> DataType * S)
    (l : list DataType) (s : S) : list DataType * S :=
  match l with
  | [] => ([], s)
  | z :: l' =>
      let '(y, s1) := func z s in
      let '(ys, s2) := entrywise func l' s1 in
      (y :: ys, s2)
  end.

Definition EntrywiseMap {S : Type} (A : Matrix)
    (func : DataType -> S -> DataType * S) (h : heap) (s : S)
  : result (heap * S) :=
  l ← LockedBuffer A h;
  let '(l', s') := entrywise func l s in
  h' ← store A l' h;
  Ok (h', s').

(** [El::Hadamard(A, B, C)]: [C] is resized to [A]'s dimensions and receives
    the entrywise product. *)
Definition Hadamard (A B C : Matrix) (h : heap) : result (Matrix * heap) :=
  if negb (same_dims A B)
  then Error "Hadamard product requires equal dimensions"
  else
    '(C', h1) ← Resize (Height A) (Width A) C h;
    a ← LockedBuffer A h1;
    b ← LockedBuffer B h1;
    h2 ← store C' (zip_with Qmult a b) h1;
    Ok (C', h2).

(** [El::Axpy(alpha, X, Y)]: [Y := Y + alpha X]. *)
Definition Axpy (alpha : DataType) (X Y : Matrix) (h : heap) : result heap :=
  if negb (same_dims X Y)
  then Error "Axpy requires equal dimensions"
  else
    x ← LockedBuffer X h;
    y ← LockedBuffer Y h;
    store Y (zip_with (fun yi xi => yi + alpha * xi) y x) h.

(** ** Random numbers

    The process-wide fast generator is its stream of canonical variates
    (values in [[0,1)]) and a position in it.
    [std::bernoulli_distribution dist(p); dist(gen)] consumes one variate
    [u] and answers [u < p]. *)

Record generator : Type := mkGenerator {
  variates : nat -> Q;
  position : nat
}.

Definition generate_canonical (g : generator) : Q * generator :=
  (variates g (position g),
   {| variates := variates g; position := Datatypes.S (position g) |}).

Definition bernoulli_distribution (p : EvalType) (g : generator)
  : bool * generator :=
  let '(u, g') := generate_canonical g in (Qltb u p, g').

(** ** The accelerator library (cuDNN) *)

(** A tensor descriptor describes a tensor's shape and stride to the
    accelerator library.  A null descriptor is [None]. *)
Record cudnnTensorDescriptor : Type := mkTensorDesc {
  desc_height : nat;
  desc_width : nat;
  desc_ldim : nat
}.

Abbreviation cudnnTensorDescriptor_t := (option cudnnTensorDescriptor).

Definition tensor_desc_of (A : Matrix) : cudnnTensorDescriptor :=
  {| desc_height := Height A; desc_width := Width A; desc_ldim := LDim A |}.

(** Modelled from the spec: [cudnn::set_tensor_desc] belongs to the cuDNN
    wrapper, which is not among the files at hand.  Per the spec, configuring
    a descriptor from a matrix replaces what it held and records that
    matrix's local shape. *)
Definition set_tensor_desc (desc : cudnnTensorDescriptor_t) (A : Matrix)
  : cudnnTensorDescriptor_t :=
  Some (tensor_desc_of A).

(** The dropout descriptor carries the drop probability
    [float(1 - m_keep_prob)]. *)
Record cudnnDropoutDescriptor : Type := mkDropoutDesc {
  dropout_rate : Q
}.

Abbreviation cudnnDropoutDescriptor_t := (option cudnnDropoutDescriptor).

(** The primitives the layer calls, as the object behind [this->m_cudnn].
    A kernel receives the contents of its input buffers and returns the
    contents it leaves in its output buffers: the forward kernel writes [y],
    the reserve space and the generator states; the backward kernel writes
    [dx], which is purely an output of it. *)
Record cudnn_manager : Type := mkCudnn {
  cudnnDropoutGetReserveSpaceSize : cudnnTensorDescriptor_t -> result nat;
  cudnnDropoutForward :
    cudnnDropoutDescriptor_t -> list DataType ->
    cudnnTensorDescriptor_t -> list DataType ->
    cudnnTensorDescriptor_t -> nat ->
    result (list DataType * list DataType * list DataType);
  cudnnDropoutBackward :
    cudnnDropoutDescriptor_t ->
    cudnnTensorDescriptor_t -> list DataType ->
    cudnnTensorDescriptor_t -> list DataType -> nat ->
    result (list DataType)
}.

(** What a kernel launch was handed: each tensor descriptor with the buffer
    it is paired with. *)
Inductive cudnn_call : Type :=
  | DropoutForward_call
      (xdesc : cudnnTensorDescriptor_t) (x : loc)
      (ydesc : cudnnTensorDescriptor_t) (y : loc)
  | DropoutBackward_call
      (dydesc : cudnnTensorDescriptor_t) (dy : loc)
      (dxdesc : cudnnTensorDescriptor_t) (dx : loc).

Definition sizeof_DataType : nat := 4.

(** ** The dropout layer (dropout.hpp)

    The layer object together with what it reaches through its base class
    and its model: the store, the execution mode, the generator, the four
    matrices of the layer contract.  [cudnn_calls] records the kernel
    launches, latest first.  The embedding is of the build with cuDNN and
    without [LBANN_SEQUENTIAL_CONSISTENCY]. *)

Record dropout : Type := mkDropout {
  memory : heap;
  get_execution_mode : execution_mode;
  using_gpus : bool;
  get_fast_generator : generator;
  m_cudnn : option cudnn_manager;
  cudnn_calls : list cudnn_call;
  get_prev_activations : Matrix;
  get_activations : Matrix;
  get_prev_error_signals : Matrix;
  get_error_signals : Matrix;
  m_keep_prob : EvalType;
  m_mask : option Matrix;
  m_dropout_cudnn_desc : cudnnDropoutDescriptor_t;
  m_input_cudnn_desc : cudnnTensorDescriptor_t;
  m_output_cudnn_desc : cudnnTensorDescriptor_t;
  m_gradient_wrt_output_cudnn_desc : cudnnTensorDescriptor_t;
  m_gradient_wrt_input_cudnn_desc : cudnnTensorDescriptor_t;
  m_states : Matrix;
  m_reserve_space : Matrix
}.

Definition set_memory (h : heap) (st : dropout) : dropout :=
  mkDropout h (get_execution_mode st) (using_gpus st) (get_fast_generator st)
    (m_cudnn st) (cudnn_calls st) (get_prev_activations st)
    (get_activations st) (get_prev_error_signals st) (get_error_signals st)
    (m_keep_prob st) (m_mask st) (m_dropout_cudnn_desc st)
    (m_input_cudnn_desc st) (m_output_cudnn_desc st)
    (m_gradient_wrt_output_cudnn_desc st)
    (m_gradient_wrt_input_cudnn_desc st) (m_states st) (m_reserve_space st).

Definition set_fast_generator (g : generator) (st : dropout) : dropout :=
  mkDropout (memory st) (get_execution_mode st) (using_gpus st) g
    (m_cudnn st) (cudnn_calls st) (get_prev_activations st)
    (get_activations st) (get_prev_error_signals st) (get_error_signals st)
    (m_keep_prob st) (m_mask st) (m_dropout_cudnn_desc st)
    (m_input_cudnn_desc st) (m_output_cudnn_desc st)
    (m_gradient_wrt_output_cudnn_desc st)
    (m_gradient_wrt_input_cudnn_desc st) (m_states st) (m_reserve_space st).

Definition set_activations (A : Matrix) (st : dropout) : dropout :=
  mkDropout (memory st) (get_execution_mode st) (using_gpus st)
    (get_fast_generator st) (m_cudnn st) (cudnn_calls st)
    (get_prev_activations st) A (get_prev_error_signals st)
    (get_error_signals st) (m_keep_prob st) (m_mask st)
    (m_dropout_cudnn_desc st) (m_input_cudnn_desc st)
    (m_output_cudnn_desc st) (m_gradient_wrt_output_cudnn_desc st)
    (m_gradient_wrt_input_cudnn_desc st) (m_states st) (m_reserve_space st).

Definition set_mask (M : Matrix) (st : dropout) : dropout :=
  mkDropout (memory st) (get_execution_mode st) (using_gpus st)
    (get_fast_generator st) (m_cudnn st) (cudnn_calls st)
    (get_prev_activations st) (get_activations st)
    (get_prev_error_signals st) (get_error_signals st) (m_keep_prob st)
    (Some M) (m_dropout_cudnn_desc st) (m_input_cudnn_desc st)
    (m_output_cudnn_desc st) (m_gradient_wrt_output_cudnn_desc st)
    (m_gradient_wrt_input_cudnn_desc st) (m_states st) (m_reserve_space st).

Definition set_reserve_space (R : Matrix) (st : dropout) : dropout :=
  mkDropout (memory st) (get_execution_mode st) (using_gpus st)
    (get_fast_generator st) (m_cudnn st) (cudnn_calls st)
    (get_prev_activations st) (get_activations st)
    (get_prev_error_signals st) (get_error_signals st) (m_keep_prob st)
    (m_mask st) (m_dropout_cudnn_desc st) (m_input_cudnn_desc st)
    (m_output_cudnn_desc st) (m_gradient_wrt_output_cudnn_desc st)
    (m_gradient_wrt_input_cudnn_desc st) (m_states st) R.

(** The data descriptors of the forward pass. *)
Definition set_fp_descs (xdesc ydesc : cudnnTensorDescriptor_t)
    (st : dropout) : dropout :=
  mkDropout (memory st) (get_execution_mode st) (using_gpus st)
    (get_fast_generator st) (m_cudnn st) (cudnn_calls st)
    (get_prev_activations st) (get_activations st)
    (get_prev_error_signals st) (get_error_signals st) (m_keep_prob st)
    (m_mask st) (m_dropout_cudnn_desc st) xdesc ydesc
    (m_gradient_wrt_output_cudnn_desc st)
    (m_gradient_wrt_input_cudnn_desc st) (m_states st) (m_reserve_space st).

(** The gradient descriptors of the backward pass. *)
Definition set_bp_descs (gwo_desc gwi_desc : cudnnTensorDescriptor_t)
    (st : dropout) : dropout :=
  mkDropout (memory st) (get_execution_mode st) (using_gpus st)
    (get_fast_generator st) (m_cudnn st) (cudnn_calls st)
    (get_prev_activations st) (get_activations st)
    (get_prev_error_signals st) (get_error_signals st) (m_keep_prob st)
    (m_mask st) (m_dropout_cudnn_desc st) (m_input_cudnn_desc st)
    (m_output_cudnn_desc st) gwo_desc gwi_desc (m_states st)
    (m_reserve_space st).

Definition record_call (c : cudnn_call) (st : dropout) : dropout :=
  mkDropout (memory st) (get_execution_mode st) (using_gpus st)
    (get_fast_generator st) (m_cudnn st) (c :: cudnn_calls st)
    (get_prev_activations st) (get_activations st)
    (get_prev_error_signals st) (get_error_signals st) (m_keep_prob st)
    (m_mask st) (m_dropout_cudnn_desc st) (m_input_cudnn_desc st)
    (m_output_cudnn_desc st) (m_gradient_wrt_output_cudnn_desc st)
    (m_gradient_wrt_input_cudnn_desc st) (m_states st) (m_reserve_space st).

(** [mode != execution_mode::training || m_keep_prob < EvalType(0)] *)
Definition dropout_disabled (st : dropout) : bool :=
  negb (is_training (get_execution_mode st)) || Qltb (m_keep_prob st) 0.

(** [*m_mask]: dereferencing the owning pointer. *)
Definition deref_mask (st : dropout) : result Matrix :=
  match m_mask st with
  | Some M => Ok M
  | None => Error "null mask"
  end.

(** [this->m_cudnn->get_handle()] *)
Definition get_handle (st : dropout) : result cudnn_manager :=
  match m_cudnn st with
  | Some c => Ok c
  | None => Error "null cudnn manager"
  end.

(** The function mapped over the mask: one Bernoulli draw per entry, whatever
    the entry held. *)
Definition draw_entry (keep_prob : EvalType) (scale : DataType)
    (z : DataType) (gen : generator) : DataType * generator :=
  let '(keep, gen') := bernoulli_distribution keep_prob gen in
  (if keep then scale else 0, gen').

Definition fp_compute_cpu (st : dropout) : result dropout :=
  let input := get_prev_activations st in
  let output := get_activations st in
  if dropout_disabled st then
    Ok (set_activations (LockedView output input) st)
  else
    let scale : DataType := 1 / m_keep_prob st in
    let height := Height input in
    let width := Width input in
    mask ← deref_mask st;
    '(mask, h1) ← Resize height width mask (memory st);
    '(h2, gen) ← EntrywiseMap mask (draw_entry (m_keep_prob st) scale) h1
                   (get_fast_generator st);
    '(output, h3) ← Hadamard input mask output h2;
    Ok (set_activations output
          (set_mask mask (set_fast_generator gen (set_memory h3 st)))).

Definition bp_compute_cpu (st : dropout) : result dropout :=
  let gradient_wrt_output := get_prev_error_signals st in
  let gradient_wrt_input := get_error_signals st in
  if dropout_disabled st then
    h ← Axpy 1 gradient_wrt_output gradient_wrt_input (memory st);
    Ok (set_memory h st)
  else
    mask ← deref_mask st;
    '(mask, h1) ← Hadamard gradient_wrt_output mask mask (memory st);
    h2 ← Axpy 1 mask gradient_wrt_input h1;
    Ok (set_mask mask (set_memory h2 st)).

Definition fp_compute_gpu (st : dropout) : result dropout :=
  let input := get_prev_activations st in
  let local_input := input in
  let output := get_activations st in
  let local_output := output in
  if dropout_disabled st then
    Ok (set_activations (LockedView output input) st)
  else if (Height local_input <? 1)%nat && (Width local_input <? 1)%nat then
    Ok st
  else
    let xdesc := set_tensor_desc (m_input_cudnn_desc st) local_input in
    let ydesc := set_tensor_desc (m_output_cudnn_desc st) local_output in
    cudnn ← get_handle st;
    size ← cudnnDropoutGetReserveSpaceSize cudnn xdesc;
    '(reserve, h1) ←
      (if (Height (m_reserve_space st) * sizeof_DataType <? size)%nat
       then Resize ((size + sizeof_DataType - 1) / sizeof_DataType) 1
              (m_reserve_space st) (memory st)
       else Ok (m_reserve_space st, memory st));
    x ← LockedBuffer local_input h1;
    y_buf ← MutableBuffer local_output;
    space_buf ← MutableBuffer reserve;
    states ← LockedBuffer (m_states st) h1;
    '(y, space, states') ←
      cudnnDropoutForward cudnn (m_dropout_cudnn_desc st) states
        xdesc x ydesc (Height reserve * sizeof_DataType);
    let h2 := <[Buffer (m_states st) := states']>
                (<[space_buf := space]> (<[y_buf := y]> h1)) in
    Ok (record_call (DropoutForward_call xdesc (Buffer local_input) ydesc y_buf)
          (set_reserve_space reserve
             (set_fp_descs xdesc ydesc (set_memory h2 st)))).

Definition bp_compute_gpu (st : dropout) : result dropout :=
  let gradient_wrt_output := get_prev_error_signals st in
  let local_gradient_wrt_output := gradient_wrt_output in
  let gradient_wrt_input := get_error_signals st in
  let local_gradient_wrt_input := gradient_wrt_input in
  if dropout_disabled st then
    h ← Axpy 1 gradient_wrt_output gradient_wrt_input (memory st);
    Ok (set_memory h st)
  else if (0 <? Height local_gradient_wrt_input)%nat
          && (0 <? Width local_gradient_wrt_input)%nat then
    let gwi_desc :=
      set_tensor_desc (m_gradient_wrt_input_cudnn_desc st)
        local_gradient_wrt_output in
    let gwo_desc :=
      set_tensor_desc (m_gradient_wrt_output_cudnn_desc st)
        local_gradient_wrt_input in
    cudnn ← get_handle st;
    dy ← LockedBuffer local_gradient_wrt_output (memory st);
    dx_buf ← MutableBuffer local_gradient_wrt_input;
    space ← LockedBuffer (m_reserve_space st) (memory st);
    dx ← cudnnDropoutBackward cudnn (m_dropout_cudnn_desc st)
           gwo_desc dy gwi_desc space
           (Height (m_reserve_space st) * sizeof_DataType);
    Ok (record_call
          (DropoutBackward_call gwo_desc (Buffer local_gradient_wrt_output)
                                gwi_desc dx_buf)
          (set_bp_descs gwo_desc gwi_desc
             (set_memory (<[dx_buf := dx]> (memory st)) st)))
  else Ok st.

Definition fp_compute (st : dropout) : result dropout :=
  if using_gpus st then fp_compute_gpu st else fp_compute_cpu st.

Definition bp_compute (st : dropout) : result dropout :=
  if using_gpus st then bp_compute_gpu st else bp_compute_cpu st.

(** ** The covariance layer (covariance_impl.hpp)

    A parent layer as this layer sees it: its name and its resolved output
    shape.  [Layer] is the part of the base class the two methods reach;
    the layer's own members are the two auxiliary matrices, each known by
    the distribution it was instantiated with, or null. *)

Record parent_layer : Type := mkParent {
  parent_name : string;
  parent_output_dims : list Z
}.

Inductive Dist : Type :=
  | MC
  | MR
  | VC
  | VR
  | STAR.

Record DistData : Type := mkDistData {
  colDist : Dist;
  rowDist : Dist
}.

Record Layer : Type := mkLayer {
  get_name : string;
  get_parent_layers : list parent_layer;
  get_output_dims : list Z;
  prev_activations_DistData : DistData
}.

Record covariance_layer : Type := mkCovariance {
  base : Layer;
  m_means : option DistData;
  m_workspace : option DistData
}.

(** A method runs on the layer object and either returns or raises; the
    object it leaves behind is kept in both cases. *)
Definition layer_op (A : Type) : Type :=
  covariance_layer -> covariance_layer * result A.

#[global] Instance layer_op_ret : MRet layer_op := fun A a l => (l, Ok a).

#[global] Instance layer_op_bind : MBind layer_op := fun A B k m l =>
  match m l with
  | (l', Ok a) => k a l'
  | (l', Error msg) => (l', Error msg)
  end.

(** [LBANN_ERROR(msg)] *)
Definition LBANN_ERROR {A : Type} (msg : string) : layer_op A :=
  fun l => (l, Error msg).

(** A base-class method, acting on the base part only. *)
Definition call_base (f : Layer -> Layer * result unit) : layer_op unit :=
  fun l =>
    let '(b, r) := f (base l) in
    ({| base := b; m_means := m_means l; m_workspace := m_workspace l |}, r).

Definition set_output_dims (dims : list Z) : layer_op unit :=
  fun l =>
    ({| base := {| get_name := get_name (base l);
                   get_parent_layers := get_parent_layers (base l);
                   get_output_dims := dims;
                   prev_activations_DistData :=
                     prev_activations_DistData (base l) |};
        m_means := m_means l; m_workspace := m_workspace l |}, Ok ()).

Definition get_num_parents : layer_op nat :=
  fun l => (l, Ok (length (get_parent_layers (base l)))).

Definition this_get_name : layer_op string :=
  fun l => (l, Ok (get_name (base l))).

(** [parents[i]->get_name()] *)
Definition parent_get_name (i : nat) : layer_op string :=
  fun l =>
    match get_parent_layers (base l) !! i with
    | Some p => (l, Ok (parent_name p))
    | None => (l, Error "parent index out of range")
    end.

(** Modelled from the spec: [get_input_dims] is a base-class accessor defined
    outside the files at hand; per the spec a layer reads each parent's
    resolved tensor shape, so input [i] has the shape parent [i] outputs. *)
Definition get_input_dims (i : nat) : layer_op (list Z) :=
  fun l =>
    match get_parent_layers (base l) !! i with
    | Some p => (l, Ok (parent_output_dims p))
    | None => (l, Error "attempted to access dimensions of invalid input")
    end.

(** [this->get_prev_activations().DistData()] *)
Definition get_prev_activations_DistData : layer_op DistData :=
  fun l => (l, Ok (prev_activations_DistData (base l))).

(** [m_means.reset(AbsDistMatrixType::Instantiate(dist_data))] *)
Definition reset_m_means (dist_data : DistData) : layer_op unit :=
  fun l =>
    ({| base := base l; m_means := Some dist_data;
        m_workspace := m_workspace l |}, Ok ()).

(** [m_workspace.reset(AbsDistMatrixType::Instantiate(dist_data))] *)
Definition reset_m_workspace (dist_data : DistData) : layer_op unit :=
  fun l =>
    ({| base := base l; m_means := m_means l;
        m_workspace := Some dist_data |}, Ok ()).

Definition dquote : string := String (Ascii.ascii_of_nat 34) EmptyString.

(** The inner loop: [err << (j > 0 ? " x " : "") << dims[j]]. *)
Fixpoint write_dims (err : string) (j : nat) (dims : list Z) : string :=
  match dims with
  | [] => err
  | d :: dims' =>
      write_dims
        (err +:+ (if (0 <? j)%nat then " x " else EmptyString) +:+ pretty d)
        (Datatypes.S j) dims'
  end.

(** The outer loop, [count] iterations from parent [i] on. *)
Fixpoint write_parents (count i : nat) (err : string) : layer_op string :=
  match count with
  | O => mret err
  | Datatypes.S count' =>
      dims ← get_input_dims i;
      name ← parent_get_name i;
      let err :=
        err +:+ (if (0 <? i)%nat then ", " else EmptyString) +:+ "layer "
            +:+ dquote +:+ name +:+ dquote +:+ " outputs " in
      write_parents count' (Datatypes.S i) (write_dims err 0 dims)
  end.

Section covariance_layer.

Variable DataReaderMetaData : Type.

(** [get_type()], declared with the class. *)
Variable get_type : string.

(** The base class's [setup_dims] and [setup_data]. *)
Variable data_type_layer_setup_dims :
  DataReaderMetaData -> Layer -> Layer * result unit.
Variable data_type_layer_setup_data : nat -> Layer -> Layer * result unit.

Definition setup_dims (dr_metadata : DataReaderMetaData) : layer_op unit :=
  _ ← call_base (data_type_layer_setup_dims dr_metadata);
  _ ← set_output_dims [1%Z];
  dims0 ← get_input_dims 0;
  dims1 ← get_input_dims 1;
  if decide (dims0 ≠ dims1) then
    name ← this_get_name;
    let err :=
      get_type +:+ " layer " +:+ dquote +:+ name +:+ dquote +:+ " "
        +:+ "has input tensors with different dimensions (" in
    num_parents ← get_num_parents;
    err ← write_parents num_parents 0 err;
    LBANN_ERROR (err +:+ ")")
  else mret ().

Definition setup_data (max_mini_batch_size : nat) : layer_op unit :=
  _ ← call_base (data_type_layer_setup_data max_mini_batch_size);
  dist_data ← get_prev_activations_DistData;
  let dist_data := {| colDist := STAR; rowDist := rowDist dist_data |} in
  _ ← reset_m_means dist_data;
  reset_m_workspace dist_data.

End covariance_layer.

(** How the message reads: the parents, separated by commas, each with its
    dimensions separated by [" x "]. *)
Definition dims_text (dims : list Z) : string :=
  String.concat " x " (map pretty dims).

Definition parent_text (p : parent_layer) : string :=
  "layer " +:+ dquote +:+ parent_name p +:+ dquote +:+ " outputs "
    +:+ dims_text (parent_output_dims p).

Definition is_substring (s t : string) : Prop :=
  exists pre post, t = pre +:+ s +:+ post.

(** ** Specification vocabulary *)

(** The canonical variates of a generator lie in [[0,1)]. *)
Definition canonical (g : generator) : Prop :=
  forall n, 0 <= variates g n /\ variates g n < 1.

(** The mask of [n] entries drawn from [g] at keep probability [p]: entry
    [i] uses its own variate, the [i]-th after the generator's position, and
    is [1/p] when that variate is below [p], else [0]. *)
Definition bernoulli_mask (p : EvalType) (g : generator) (n : nat)
  : list DataType :=
  map (fun i => if Qltb (variates g (position g + i)) p then 1 / p else 0)
      (seq 0 n).

Definition advance (n : nat) (g : generator) : generator :=
  {| variates := variates g; position := position g + n |}.

(** How many of the [N] equally spaced canonical variates
    [0/N, 1/N, ..., (N-1)/N] a Bernoulli draw at probability [p] keeps. *)
Definition kept_among (p : EvalType) (N : positive) : nat :=
  length
    (List.filter
       (fun k => fst (bernoulli_distribution p
                        {| variates := fun _ => Z.of_nat k # N;
                           position := 0 |}))
       (seq 0 (Pos.to_nat N))).

(** What the training-mode forward pass on the host relies on: the mask has
    been set up and owns its buffer, the input and the output are allocated,
    the output owns its buffer, and the three buffers are distinct.  [M] is
    the mask's handle and [x] the input's entries. *)
Definition fp_ready (st : dropout) (M : Matrix) (x : list DataType) : Prop :=
  m_mask st = Some M /\
  viewType M = OWNER /\
  (exists lm, memory st !! Buffer M = Some lm /\
              length lm = (Height M * Width M)%nat) /\
  memory st !! Buffer (get_prev_activations st) = Some x /\
  length x
    = (Height (get_prev_activations st) * Width (get_prev_activations st))%nat /\
  viewType (get_activations st) = OWNER /\
  is_Some (memory st !! Buffer (get_activations st)) /\
  Buffer M ≠ Buffer (get_prev_activations st) /\
  Buffer M ≠ Buffer (get_activations st) /\
  Buffer (get_activations st) ≠ Buffer (get_prev_activations st).

(** What the training-mode backward pass on the host relies on: the mask
    has been set up and is writable, the two gradients and the mask have the
    same dimensions and are allocated in three distinct buffers, and the
    input gradient is writable.  [dy], [m] and [dx] are the entries of the
    output gradient, the mask and the input gradient. *)
Definition bp_ready (st : dropout) (M : Matrix) (dy m dx : list DataType)
  : Prop :=
  m_mask st = Some M /\
  Locked M = false /\
  same_dims (get_prev_error_signals st) M = true /\
  same_dims M (get_error_signals st) = true /\
  memory st !! Buffer (get_prev_error_signals st) = Some dy /\
  memory st !! Buffer M = Some m /\
  memory st !! Buffer (get_error_signals st) = Some dx /\
  Locked (get_error_signals st) = false /\
  Buffer M ≠ Buffer (get_error_signals st) /\
  Buffer M ≠ Buffer (get_prev_error_signals st) /\
  Buffer (get_error_signals st) ≠ Buffer (get_prev_error_signals st).

(** ** Concrete instances, for evaluation *)

(** A stand-in for the accelerator library, after the documentation of the
    two kernels: the forward kernel keeps an entry, scaled by
    [1 / (1 - rate)], when the next variate of the states buffer is below
    [1 - rate], and leaves the keep flags in the reserve space; the backward
    kernel sets [dx] to [dy] times the kept flags times the same scale.
    Both reject null descriptors and descriptors of different sizes. *)
Definition desc_size (d : cudnnTensorDescriptor) : nat :=
  (desc_height d * desc_width d)%nat.

Definition stub_forward (dd : cudnnDropoutDescriptor_t)
    (states : list DataType) (xdesc : cudnnTensorDescriptor_t)
    (x : list DataType) (ydesc : cudnnTensorDescriptor_t) (bytes : nat)
  : result (list DataType * list DataType * list DataType) :=
  match dd, xdesc, ydesc with
  | Some dd, Some xd, Some yd =>
      if negb (desc_size xd =? desc_size yd)%nat
      then Error "CUDNN_STATUS_BAD_PARAM"
      else
        let keep := 1 - dropout_rate dd in
        let flags :=
          zip_with (fun _ u => if Qltb u keep then 1 else 0) x states in
        Ok (zip_with (fun xi f => xi * (f / keep)) x flags, flags,
            drop (length x) states ++ take (length x) states)
  | _, _, _ => Error "CUDNN_STATUS_BAD_PARAM"
  end.

Definition stub_backward (dd : cudnnDropoutDescriptor_t)
    (dydesc : cudnnTensorDescriptor_t) (dy : list DataType)
    (dxdesc : cudnnTensorDescriptor_t) (space : list DataType) (bytes : nat)
  : result (list DataType) :=
  match dd, dydesc, dxdesc with
  | Some dd, Some dyd, Some dxd =>
      if negb (desc_size dyd =? desc_size dxd)%nat
      then Error "CUDNN_STATUS_BAD_PARAM"
      else
        let keep := 1 - dropout_rate dd in
        Ok (zip_with (fun dyi f => dyi * (f / keep)) dy space)
  | _, _, _ => Error "CUDNN_STATUS_BAD_PARAM"
  end.

Definition cudnn_stub : cudnn_manager :=
  {| cudnnDropoutGetReserveSpaceSize := fun d =>
       match d with
       | Some d => Ok (desc_size d)
       | None => Error "CUDNN_STATUS_BAD_PARAM"
       end;
     cudnnDropoutForward := stub_forward;
     cudnnDropoutBackward := stub_backward |}.

(** A generator whose variates cycle through 1/4, 3/4. *)
Definition gen_alternating : generator :=
  {| variates := fun n => if Nat.even n then 1 # 4 else 3 # 4;
     position := 0 |}.

(** A layer on 1 x 2 matrices.  Buffers: 0 input, 1 output, 2 gradient
    w.r.t. output, 3 gradient w.r.t. input, 4 mask, 5 generator states of
    the accelerator, 6 its reserve space. *)
Definition owner (height width l : nat) : Matrix :=
  {| Height := height; Width := width; LDim := Nat.max height 1;
     Buffer := l; viewType := OWNER |}.

Definition example_memory : heap :=
  <[0%nat := [3; 4]]> (<[1%nat := [0; 0]]> (<[2%nat := [2; 2]]>
  (<[3%nat := [10; 20]]> (<[4%nat := [2; 0]]> (<[5%nat := [1 # 4; 3 # 4]]>
  (<[6%nat := [1; 0]]> ∅)))))).

Definition example_layer (mode : execution_mode) (gpu : bool)
    (keep_prob : EvalType) : dropout :=
  {| memory := example_memory;
     get_execution_mode := mode;
     using_gpus := gpu;
     get_fast_generator := gen_alternating;
     m_cudnn := Some cudnn_stub;
     cudnn_calls := [];
     get_prev_activations := owner 1 2 0;
     get_activations := owner 1 2 1;
     get_prev_error_signals := owner 1 2 2;
     get_error_signals := owner 1 2 3;
     m_keep_prob := keep_prob;
     m_mask := Some (owner 1 2 4);
     m_dropout_cudnn_desc := Some {| dropout_rate := 1 - keep_prob |};
     m_input_cudnn_desc := None;
     m_output_cudnn_desc := None;
     m_gradient_wrt_output_cudnn_desc := None;
     m_gradient_wrt_input_cudnn_desc := None;
     m_states := owner 2 1 5;
     m_reserve_space := owner 2 1 6 |}.

(** The same layer in training mode on the host with keep probability 1,
    its mask left over from a 1 x 1 batch. *)
Definition example_stale_mask : dropout :=
  set_mask (owner 1 1 4)
    (set_memory (<[4%nat := [0]]> example_memory)
       (example_layer training false 1)).

(** The layer in training mode on the accelerator, its output gradient being
    a 1 x 2 view with leading dimension 3 into a wider buffer of the child. *)
Definition example_strided : dropout :=
  {| memory := example_memory;
     get_execution_mode := training;
     using_gpus := true;
     get_fast_generator := gen_alternating;
     m_cudnn := Some cudnn_stub;
     cudnn_calls := [];
     get_prev_activations := owner 1 2 0;
     get_activations := owner 1 2 1;
     get_prev_error_signals :=
       {| Height := 1; Width := 2; LDim := 3; Buffer := 2%nat;
          viewType := VIEW |};
     get_error_signals := owner 1 2 3;
     m_keep_prob := 1 # 2;
     m_mask := Some (owner 1 2 4);
     m_dropout_cudnn_desc := Some {| dropout_rate := 1 # 2 |};
     m_input_cudnn_desc := None;
     m_output_cudnn_desc := None;
     m_gradient_wrt_output_cudnn_desc := None;
     m_gradient_wrt_input_cudnn_desc := None;
     m_states := owner 2 1 5;
     m_reserve_space := owner 2 1 6 |}.

(** A covariance layer named "cov" below parents "a" of shape 4 x 4 and "b"
    of shape 4 x 5 (or 4 x 4), nothing allocated yet; and a base class whose
    [setup_dims] gives the layer its first parent's shape. *)
Definition example_covariance (dims_b : list Z) : covariance_layer :=
  {| base := {| get_name := "cov";
                get_parent_layers :=
                  [ {| parent_name := "a"; parent_output_dims := [4; 4]%Z |};
                    {| parent_name := "b"; parent_output_dims := dims_b |} ];
                get_output_dims := [];
                prev_activations_DistData :=
                  {| colDist := STAR; rowDist := VC |} |};
     m_means := None;
     m_workspace := None |}.

Definition example_base_setup_dims (_ : unit) (b : Layer)
  : Layer * result unit :=
  ({| get_name := get_name b;
      get_parent_layers := get_parent_layers b;
      get_output_dims :=
        match get_parent_layers b with
        | p :: _ => parent_output_dims p
        | [] => get_output_dims b
        end;
      prev_activations_DistData := prev_activations_DistData b |}, Ok ()).

(** ** Further vocabulary and instances *)

(** What a backward pass right after the training-mode forward pass on the
    host relies on, besides [fp_ready]: both gradients have the input's
    dimensions and are allocated, the input gradient is writable, and their
    buffers are distinct from each other, from the mask's and from the
    output's.  [dy] and [dx] are the entries of the output gradient and of the
    input gradient. *)
Definition gradients_ready (st : dropout) (M : Matrix) (dy dx : list DataType)
  : Prop :=
  same_dims (get_prev_error_signals st) (get_prev_activations st) = true /\
  same_dims (get_error_signals st) (get_prev_activations st) = true /\
  memory st !! Buffer (get_prev_error_signals st) = Some dy /\
  memory st !! Buffer (get_error_signals st) = Some dx /\
  Locked (get_error_signals st) = false /\
  Buffer (get_prev_error_signals st) ≠ Buffer M /\
  Buffer (get_prev_error_signals st) ≠ Buffer (get_activations st) /\
  Buffer (get_error_signals st) ≠ Buffer M /\
  Buffer (get_error_signals st) ≠ Buffer (get_activations st) /\
  Buffer (get_error_signals st) ≠ Buffer (get_prev_error_signals st).


(** [A.Copy()]: a new matrix that owns a newly allocated buffer holding
    [A]'s entries. *)
Definition Copy (A : Matrix) (h : heap) : result (Matrix * heap) :=
  l ← LockedBuffer A h;
  let buf := fresh (dom h) in
  Ok ({| Height := Height A; Width := Width A;
         LDim := Nat.max (Height A) 1; Buffer := buf; viewType := OWNER |},
      <[buf := l]> h).

(** Assigning to the owning pointer [m_mask] destroys the matrix it held,
    which frees the buffer that matrix owned. *)
Definition release (M : option Matrix) (h : heap) : heap :=
  match M with
  | Some M => if Viewing M then h else delete (Buffer M) h
  | None => h
  end.

Section dropout_setup.

Variable Grid : Type.

(** The base class's [setup_matrices]. *)
Variable regularizer_layer_setup_matrices : Grid -> dropout -> result dropout.

Definition setup_matrices (grid : Grid) (st : dropout) : result dropout :=
  st ← regularizer_layer_setup_matrices grid st;
  '(mask, h) ← Copy (get_activations st) (memory st);
  Ok (set_mask mask (set_memory (release (m_mask st) h) st)).

End dropout_setup.

(** A layer in training mode on the accelerator at keep probability 1/2 with
    the four matrices given and an empty reserve space. *)
Definition example_gpu_dims (input output gwo gwi : Matrix) : dropout :=
  {| memory := example_memory;
     get_execution_mode := training;
     using_gpus := true;
     get_fast_generator := gen_alternating;
     m_cudnn := Some cudnn_stub;
     cudnn_calls := [];
     get_prev_activations := input;
     get_activations := output;
     get_prev_error_signals := gwo;
     get_error_signals := gwi;
     m_keep_prob := 1 # 2;
     m_mask := Some (owner 1 2 4);
     m_dropout_cudnn_desc := Some {| dropout_rate := 1 # 2 |};
     m_input_cudnn_desc := None;
     m_output_cudnn_desc := None;
     m_gradient_wrt_output_cudnn_desc := None;
     m_gradient_wrt_input_cudnn_desc := None;
     m_states := owner 2 1 5;
     m_reserve_space := owner 0 1 6 |}.

Definition example_gpu : dropout :=
  example_gpu_dims (owner 1 2 0) (owner 1 2 1) (owner 1 2 2) (owner 1 2 3).

Definition example_gpu_empty : dropout :=
  example_gpu_dims (owner 0 0 0) (owner 0 0 1) (owner 0 0 2) (owner 0 0 3).

(** A base-class [setup_matrices] that changes nothing. *)
Definition example_base_setup_matrices (_ : unit) (st : dropout)
  : result dropout := Ok st.

(** The covariance layer as [setup_dims] leaves it when the base class's
    [setup_dims] left the base part [b]. *)
Definition after_setup_dims (b : Layer) (l : covariance_layer)
  : covariance_layer :=
  {| base := {| get_name := get_name b;
                get_parent_layers := get_parent_layers b;
                get_output_dims := [1%Z];
                prev_activations_DistData := prev_activations_DistData b |};
     m_means := m_means l;
     m_workspace := m_workspace l |}.

(** A base-class method that raises, and one that returns at once. *)
Definition failing_base {A : Type} (msg : string) (_ : A) (b : Layer)
  : Layer * result unit :=
  (b, Error msg).

Definition example_base_setup_data (_ : nat) (b : Layer)
  : Layer * result unit := (b, Ok ()).

(** A covariance layer below three parents, the third of another shape. *)
Definition example_covariance3 : covariance_layer :=
  {| base := {| get_name := "cov";
                get_parent_layers :=
                  [ {| parent_name := "a"; parent_output_dims := [4; 4]%Z |};
                    {| parent_name := "b"; parent_output_dims := [4; 4]%Z |};
                    {| parent_name := "c"; parent_output_dims := [7]%Z |} ];
                get_output_dims := [];
                prev_activations_DistData :=
                  {| colDist := STAR; rowDist := VC |} |};
     m_means := None;
     m_workspace := None |}.

(** * Properties *)

Lemma Qltb_lt x y : Qltb x y = true <-> x < y.
Proof.
  unfold Qltb. rewrite negb_true_iff, <- not_true_iff_false, Qle_bool_iff.
  split; [apply Qnot_le_lt | apply Qlt_not_le].
Qed.

Lemma Qltb_ge x y : Qltb x y = false <-> y <= x.
Proof.
  unfold Qltb. rewrite negb_false_iff. apply Qle_bool_iff.
Qed.

(** ** Identity and rectified-linear scalars *)

(** C3 (as the code has it).  The identity layer's scalar function returns its
    argument, and so does the function the source names its gradient: at
    [z = 0] the gradient evaluates to [0], not to [1]; it equals [1] only at
    [z = 1]. *)
Theorem id_layer_gradient_returns_argument :
  (forall z, id_layer.activation_function z = z) /\
  (forall z, id_layer.activation_function_gradient z = z) /\
  id_layer.activation_function_gradient 0 = 0 /\
  ~ id_layer.activation_function_gradient 0 == 1.
Proof.
  repeat split. intros H. discriminate H.
Qed.

(** C8.  The rectified-linear scalar is [max(z, 0)], hence never negative;
    its derivative is [1] for [z > 0] and [0] otherwise, so it is exactly [0]
    at [0]. *)
Theorem relu_activation_spec :
  (forall z, relu_layer.activation z == Qmax z 0) /\
  (forall z, 0 <= relu_layer.activation z) /\
  (forall z, 0 < z -> relu_layer.activation_derivative z = 1) /\
  (forall z, ~ 0 < z -> relu_layer.activation_derivative z = 0) /\
  relu_layer.activation_derivative 0 = 0.
Proof.
  unfold relu_layer.activation, relu_layer.activation_derivative.
  repeat split; intros.
  - destruct (Qltb 0 z) eqn:E.
    + apply Qltb_lt in E. symmetry. apply Q.max_l. by apply Qlt_le_weak.
    + apply Qltb_ge in E. symmetry. by apply Q.max_r.
  - destruct (Qltb 0 z) eqn:E.
    + apply Qltb_lt in E. by apply Qlt_le_weak.
    + apply Qle_refl.
  - apply Qltb_lt in H. by rewrite H.
  - destruct (Qltb 0 z) eqn:E; [|done]. apply Qltb_lt in E. contradiction.
Qed.

(** Idempotence of the rectified-linear scalar, for every input. *)
Lemma relu_idempotent z :
  relu_layer.activation (relu_layer.activation z) = relu_layer.activation z.
Proof.
  unfold relu_layer.activation.
  destruct (Qltb 0 z) eqn:E; [by rewrite E | done].
Qed.

(** C9 (as stated) fails: on the input list [[-1]] the function is idempotent
    although an input is negative. *)
Lemma relu_idempotent_only_nonneg_fails :
  ~ (forall xs : list DataType,
       Forall (fun x => relu_layer.activation (relu_layer.activation x)
                        = relu_layer.activation x) xs ->
       Forall (fun x => 0 <= x) xs).
Proof.
  intros H. specialize (H [-1]).
  assert (Hn : Forall (fun x : Q => 0 <= x) [-1]).
  { apply H. constructor; [reflexivity | constructor]. }
  inversion Hn as [|? ? Hle _]. by apply Hle.
Qed.

(** C9 (amended).  The rectified-linear scalar is idempotent on every input,
    negative ones included; what holds only for non-negative inputs is that
    the input is a fixed point: [f x == x] exactly when [0 <= x]. *)
Theorem relu_idempotent_everywhere :
  (forall x, relu_layer.activation (relu_layer.activation x)
             = relu_layer.activation x) /\
  (forall x, relu_layer.activation x == x <-> 0 <= x).
Proof.
  split; [apply relu_idempotent |].
  intros x. unfold relu_layer.activation.
  destruct (Qltb 0 x) eqn:E.
  - apply Qltb_lt in E. split; [intros _; by apply Qlt_le_weak | reflexivity].
  - apply Qltb_ge in E. split.
    + intros <-. apply Qle_refl.
    + intros H. symmetry. by apply Qle_antisym.
Qed.

(** ** Scalar and list facts used for the dropout layer *)

Lemma Qmult_1_l_eq (x : Q) : 1 * x = x.
Proof. destruct x as [n d]. unfold Qmult. simpl. by destruct n. Qed.

Lemma Qmult_1_r_eq (x : Q) : x * 1 = x.
Proof.
  destruct x as [n d]. unfold Qmult. simpl.
  by rewrite Z.mul_1_r, Pos.mul_1_r.
Qed.

Lemma zip_with_axpy_1 (y x : list DataType) :
  zip_with (fun yi xi => yi + 1 * xi) y x = zip_with Qplus y x.
Proof.
  revert x. induction y as [|yi y IH]; intros [|xi x]; simpl; try done.
  by rewrite Qmult_1_l_eq, IH.
Qed.

Lemma zip_with_mult_ones (x : list DataType) (n : nat) :
  length x = n -> zip_with Qmult x (replicate n 1) = x.
Proof.
  revert n. induction x as [|xi x IH]; intros [|n] Hn; simpl in *; try done.
  rewrite Qmult_1_r_eq, IH; [done | lia].
Qed.

Lemma bind_Ok {A B} (a : A) (k : A -> result B) : (Ok a ≫= k) = k a.
Proof. reflexivity. Qed.

Lemma entrywise_draw (p : EvalType) (scale : DataType) (l : list DataType)
    (g : generator) :
  entrywise (draw_entry p scale) l g
  = (map (fun i => if Qltb (variates g (position g + i)) p then scale else 0)
         (seq 0 (length l)),
     {| variates := variates g; position := position g + length l |}).
Proof.
  revert g. induction l as [|z l IH]; intros [v n]; simpl.
  - by rewrite Nat.add_0_r.
  - rewrite IH. simpl. rewrite Nat.add_0_r. f_equal.
    + f_equal. rewrite <- seq_shift, map_map. apply map_ext. intros i.
      by rewrite Nat.add_succ_r.
    + f_equal. lia.
Qed.

(** ** Dropout disabled: pass-through *)

Lemma fp_compute_disabled (st : dropout) :
  dropout_disabled st = true ->
  fp_compute st
  = Ok (set_activations
          (LockedView (get_activations st) (get_prev_activations st)) st).
Proof.
  intros Hdis. unfold fp_compute, fp_compute_gpu, fp_compute_cpu.
  rewrite Hdis. by destruct (using_gpus st).
Qed.

Lemma Axpy_1 (X Y : Matrix) (h : heap) (x y : list DataType) :
  same_dims X Y = true ->
  h !! Buffer X = Some x ->
  h !! Buffer Y = Some y ->
  Locked Y = false ->
  Axpy 1 X Y h = Ok (<[Buffer Y := zip_with Qplus y x]> h).
Proof.
  intros Hd Hx Hy Hl. unfold Axpy, LockedBuffer, store, MutableBuffer.
  rewrite Hd, Hx, Hy, Hl. simpl. by rewrite zip_with_axpy_1.
Qed.

Lemma bp_compute_disabled (st : dropout) (dy dx : list DataType) :
  dropout_disabled st = true ->
  same_dims (get_prev_error_signals st) (get_error_signals st) = true ->
  memory st !! Buffer (get_prev_error_signals st) = Some dy ->
  memory st !! Buffer (get_error_signals st) = Some dx ->
  Locked (get_error_signals st) = false ->
  bp_compute st
  = Ok (set_memory
          (<[Buffer (get_error_signals st) := zip_with Qplus dx dy]>
             (memory st)) st).
Proof.
  intros Hdis Hd Hdy Hdx Hl.
  unfold bp_compute, bp_compute_gpu, bp_compute_cpu. rewrite Hdis.
  rewrite (Axpy_1 _ _ _ dy dx) by done. by destruct (using_gpus st).
Qed.

(** C4.  With dropout disabled (mode other than training, or negative keep
    probability), on either device: the forward pass only turns the output
    handle into a locked view of the input's buffer, the store being left
    as it was (nothing copied, nothing allocated), and the mask handle is
    untouched; the backward pass, on gradients of equal dimensions with a
    writable input gradient, adds the output gradient, unscaled, into the
    input gradient's buffer and changes nothing else: no buffer appears, the
    mask handle is the same. *)
Theorem dropout_disabled_pass_through (st : dropout) :
  dropout_disabled st = true ->
  (exists st',
     fp_compute st = Ok st' /\
     Buffer (get_activations st') = Buffer (get_prev_activations st) /\
     viewType (get_activations st') = LOCKED_VIEW /\
     same_dims (get_activations st') (get_prev_activations st) = true /\
     memory st' = memory st /\
     m_mask st' = m_mask st) /\
  (forall dy dx,
     same_dims (get_prev_error_signals st) (get_error_signals st) = true ->
     memory st !! Buffer (get_prev_error_signals st) = Some dy ->
     memory st !! Buffer (get_error_signals st) = Some dx ->
     Locked (get_error_signals st) = false ->
     exists st',
       bp_compute st = Ok st' /\
       memory st' !! Buffer (get_error_signals st)
         = Some (zip_with Qplus dx dy) /\
       (forall l, l ≠ Buffer (get_error_signals st) ->
                  memory st' !! l = memory st !! l) /\
       dom (memory st') = dom (memory st) /\
       m_mask st' = m_mask st).
Proof.
  intros Hdis. split.
  - eexists. split; [by apply fp_compute_disabled |]. simpl.
    unfold same_dims. simpl. by rewrite !Nat.eqb_refl.
  - intros dy dx Hd Hdy Hdx Hl. eexists.
    split; [by apply (bp_compute_disabled st dy dx) |]. simpl.
    split; [by rewrite lookup_insert_eq |].
    split; [intros l Hne; by rewrite lookup_insert_ne |].
    split; [|done].
    rewrite dom_insert_L. apply subseteq_union_1_L, singleton_subseteq_l.
    by apply elem_of_dom_2 in Hdx.
Qed.

(** C4 at a layer on the accelerator, in training mode with the negative
    sentinel. *)
Lemma dropout_disabled_pass_through_witness :
  dropout_disabled (example_layer training true (-1)) = true /\
  (exists st',
     fp_compute (example_layer training true (-1)) = Ok st' /\
     Buffer (get_activations st') = 0%nat /\
     viewType (get_activations st') = LOCKED_VIEW /\
     same_dims (get_activations st') (owner 1 2 0) = true /\
     memory st' = example_memory /\
     m_mask st' = Some (owner 1 2 4)) /\
  (exists st',
     bp_compute (example_layer training true (-1)) = Ok st' /\
     memory st' !! 3%nat = Some [12; 22]).
Proof.
  destruct (dropout_disabled_pass_through
              (example_layer training true (-1)) eq_refl) as [Hfp Hbp].
  split; [reflexivity |]. split; [exact Hfp |].
  destruct (Hbp [2; 2] [10; 20] eq_refl eq_refl eq_refl eq_refl)
    as (st' & Hrun & Hmem & _).
  exists st'. split; [exact Hrun | exact Hmem].
Defined.

(** ** Dropout enabled: the forward pass on the host *)

Lemma Resize_owner (height width : nat) (A : Matrix) (h : heap)
    (l : list DataType) :
  viewType A = OWNER ->
  h !! Buffer A = Some l ->
  exists A' l',
    Resize height width A h = Ok (A', <[Buffer A := l']> h) /\
    Height A' = height /\ Width A' = width /\
    Buffer A' = Buffer A /\ viewType A' = OWNER /\
    (length l = (Height A * Width A)%nat -> length l' = (height * width)%nat).
Proof.
  intros Hown Hl. unfold Resize.
  destruct ((Height A =? height)%nat && (Width A =? width)%nat) eqn:Hsame.
  - apply andb_true_iff in Hsame as [Hh Hw].
    apply Nat.eqb_eq in Hh, Hw. subst height width.
    exists A, l. by rewrite insert_id.
  - unfold Viewing, LockedBuffer. rewrite Hown, Hl. simpl.
    eexists _, _. split; [reflexivity |]. simpl.
    repeat split; try done. intros _. apply length_resize.
Qed.

Lemma EntrywiseMap_draw (A : Matrix) (p : EvalType) (scale : DataType)
    (h : heap) (g : generator) (l : list DataType) :
  viewType A = OWNER ->
  h !! Buffer A = Some l ->
  EntrywiseMap A (draw_entry p scale) h g
  = Ok (<[Buffer A :=
            map (fun i => if Qltb (variates g (position g + i)) p
                          then scale else 0) (seq 0 (length l))]> h,
        advance (length l) g).
Proof.
  intros Hown Hl. unfold EntrywiseMap, LockedBuffer, store, MutableBuffer, Locked.
  rewrite Hown, Hl. simpl. by rewrite entrywise_draw.
Qed.

Lemma Hadamard_owner (A B C : Matrix) (h : heap) (a b c : list DataType) :
  same_dims A B = true ->
  viewType C = OWNER ->
  h !! Buffer A = Some a ->
  h !! Buffer B = Some b ->
  h !! Buffer C = Some c ->
  Buffer C ≠ Buffer A ->
  Buffer C ≠ Buffer B ->
  exists C',
    Hadamard A B C h = Ok (C', <[Buffer C := zip_with Qmult a b]> h) /\
    Height C' = Height A /\ Width C' = Width A /\
    Buffer C' = Buffer C /\ viewType C' = OWNER.
Proof.
  intros Hd Hown Ha Hb Hc HCA HCB. unfold Hadamard. rewrite Hd. simpl.
  destruct (Resize_owner (Height A) (Width A) C h c Hown Hc)
    as (C' & c' & -> & Hh & Hw & Hbuf & Hv & _).
  simpl. unfold LockedBuffer, store, MutableBuffer, Locked.
  rewrite Hbuf, Hv, !lookup_insert_ne by done. rewrite Ha, Hb. simpl.
  rewrite insert_insert_eq. by exists C'.
Qed.

Lemma fp_compute_cpu_enabled (st : dropout) (M : Matrix)
    (x : list DataType) :
  dropout_disabled st = false ->
  fp_ready st M x ->
  let input := get_prev_activations st in
  let n := (Height input * Width input)%nat in
  let mask := bernoulli_mask (m_keep_prob st) (get_fast_generator st) n in
  exists st' M' O',
    fp_compute_cpu st = Ok st' /\
    m_mask st' = Some M' /\
    Height M' = Height input /\ Width M' = Width input /\
    Buffer M' = Buffer M /\
    memory st' !! Buffer M = Some mask /\
    get_activations st' = O' /\
    Height O' = Height input /\ Width O' = Width input /\
    Buffer O' = Buffer (get_activations st) /\
    memory st' !! Buffer (get_activations st) = Some (zip_with Qmult x mask) /\
    memory st' !! Buffer input = Some x /\
    get_fast_generator st' = advance n (get_fast_generator st).
Proof.
  intros Hen (Hmask & HMown & (lm & HM & Hlm) & Hx & Hlen & HOown &
              [lo HO] & HMI & HMO & HOI) input n mask.
  unfold fp_compute_cpu, deref_mask. rewrite Hen, Hmask, bind_Ok.
  destruct (Resize_owner (Height input) (Width input) M (memory st) lm
              HMown HM)
    as (M' & lm' & HR & HM'h & HM'w & HM'b & HM'v & Hlm').
  specialize (Hlm' Hlm). fold input. rewrite HR, bind_Ok. cbv beta iota.
  rewrite (EntrywiseMap_draw M' _ _ _ _ lm'), bind_Ok;
    [| done | by rewrite HM'b, lookup_insert_eq].
  cbv beta iota. rewrite HM'b, insert_insert_eq, Hlm'.
  change (map _ (seq 0 (Height input * Width input))) with mask.
  set (h2 := <[Buffer M := mask]> (memory st)).
  destruct (Hadamard_owner input M' (get_activations st) h2 x mask lo)
    as (O' & HH & HO'h & HO'w & HO'b & HO'v).
  { unfold same_dims. by rewrite HM'h, HM'w, !Nat.eqb_refl. }
  { done. }
  { unfold h2. by rewrite lookup_insert_ne. }
  { unfold h2. by rewrite HM'b, lookup_insert_eq. }
  { unfold h2. by rewrite lookup_insert_ne. }
  { done. }
  { rewrite HM'b. intros E. by apply HMO. }
  rewrite HH, bind_Ok. cbv beta iota.
  eexists _, M', O'. split; [reflexivity |]. simpl.
  repeat split; try done.
  - rewrite lookup_insert_ne by (intros E; by apply HMO).
    unfold h2. by rewrite lookup_insert_eq.
  - by rewrite lookup_insert_eq.
  - rewrite lookup_insert_ne by done. unfold h2.
    by rewrite lookup_insert_ne.
Qed.

Lemma training_enabled (st : dropout) :
  get_execution_mode st = training ->
  0 <= m_keep_prob st ->
  dropout_disabled st = false.
Proof.
  intros Hmode Hp. unfold dropout_disabled. rewrite Hmode. simpl.
  by apply Qltb_ge.
Qed.

Lemma lookup_bernoulli_mask (p : EvalType) (g : generator) (n i : nat) :
  (i < n)%nat ->
  bernoulli_mask p g n !! i
  = Some (if Qltb (variates g (position g + i)) p then 1 / p else 0).
Proof.
  intros Hi. unfold bernoulli_mask.
  by rewrite list_lookup_fmap, lookup_seq_lt.
Qed.

Lemma length_bernoulli_mask (p : EvalType) (g : generator) (n : nat) :
  length (bernoulli_mask p g n) = n.
Proof. unfold bernoulli_mask. by rewrite length_map, length_seq. Qed.

Lemma count_below (m N : nat) :
  length (List.filter (fun k => (k <? m)%nat) (seq 0 N)) = Nat.min m N.
Proof.
  induction N as [|N IH]; [by rewrite Nat.min_0_r |].
  rewrite seq_S, List.filter_app, length_app, IH. simpl.
  destruct (N <? m)%nat eqn:E; simpl.
  - apply Nat.ltb_lt in E. lia.
  - apply Nat.ltb_ge in E. lia.
Qed.

Lemma grid_below (p : Q) (k : nat) :
  Qltb (Z.of_nat k # Qden p) p = (k <? Z.to_nat (Qnum p))%nat.
Proof.
  destruct p as [n d]. simpl.
  apply eq_true_iff_eq. rewrite Qltb_lt, Nat.ltb_lt.
  unfold Qlt. simpl. nia.
Qed.

(** A Bernoulli draw at probability [p = n/d] in [0,1] keeps exactly [n] of
    the [d] equally spaced canonical variates: the fraction [p]. *)
Lemma bernoulli_keep_fraction (p : EvalType) :
  p <= 1 -> kept_among p (Qden p) = Z.to_nat (Qnum p).
Proof.
  intros Hp. unfold kept_among, bernoulli_distribution. simpl.
  rewrite (List.filter_ext _ (fun k => (k <? Z.to_nat (Qnum p))%nat))
    by (intros k; apply grid_below).
  rewrite count_below. destruct p as [n d]. unfold Qle in Hp. simpl in *. lia.
Qed.

(** C2.  In training mode with keep probability [p] in (0,1], the forward
    pass on the host succeeds and draws one mask entry per element, each
    from its own variate of the generator: the entry is [1/p] when the
    Bernoulli draw at probability [p] on that variate succeeds and [0]
    otherwise, and such a draw keeps the fraction [p] of equally spaced
    canonical variates.  The output buffer receives input times mask, entry
    by entry; the mask, of the input's dimensions, is what the layer's mask
    buffer then holds; the input is unchanged. *)
Theorem fp_compute_cpu_training_mask (st : dropout) (M : Matrix)
    (x : list DataType) :
  get_execution_mode st = training ->
  0 < m_keep_prob st ->
  m_keep_prob st <= 1 ->
  fp_ready st M x ->
  let input := get_prev_activations st in
  let p := m_keep_prob st in
  let g := get_fast_generator st in
  let n := (Height input * Width input)%nat in
  exists st' mask M',
    fp_compute_cpu st = Ok st' /\
    length mask = n /\
    (forall i, (i < n)%nat ->
       mask !! i
       = Some (if fst (bernoulli_distribution p (advance i g))
               then 1 / p else 0)) /\
    kept_among p (Qden p) = Z.to_nat (Qnum p) /\
    memory st' !! Buffer (get_activations st') = Some (zip_with Qmult x mask) /\
    (forall i xi, x !! i = Some xi ->
       exists mi, mask !! i = Some mi /\
                  zip_with Qmult x mask !! i = Some (xi * mi)) /\
    same_dims (get_activations st') input = true /\
    m_mask st' = Some M' /\
    same_dims M' input = true /\
    memory st' !! Buffer M' = Some mask /\
    memory st' !! Buffer input = Some x /\
    get_fast_generator st' = advance n g.
Proof.
  intros Hmode Hp0 Hp1 Hready input p g n.
  assert (Hen : dropout_disabled st = false).
  { apply training_enabled; [done | by apply Qlt_le_weak]. }
  destruct (fp_compute_cpu_enabled st M x Hen Hready)
    as (st' & M' & O' & Hrun & Hmask & HMh & HMw & HMb & HMmem & HO & HOh &
        HOw & HOb & HOmem & HImem & Hgen).
  fold input n p g in HMh, HMw, HMmem, HOh, HOw, HOmem, HImem, Hgen.
  exists st', (bernoulli_mask p g n), M'.
  split; [done |]. split; [apply length_bernoulli_mask |].
  split; [intros i Hi; by rewrite lookup_bernoulli_mask |].
  split; [by apply bernoulli_keep_fraction |].
  split; [by rewrite HO, HOb |].
  split.
  { intros i xi Hxi.
    assert (Hi : (i < n)%nat).
    { apply lookup_lt_Some in Hxi. destruct Hready as (_&_&_&_&Hlen&_).
      unfold n, input. by rewrite <- Hlen. }
    eexists. split; [by apply lookup_bernoulli_mask |].
    apply lookup_zip_with_Some. eexists _, _.
    split; [reflexivity |]. split; [exact Hxi |].
    by apply lookup_bernoulli_mask. }
  split; [unfold same_dims; by rewrite HO, HOh, HOw, !Nat.eqb_refl |].
  split; [done |].
  split; [unfold same_dims; by rewrite HMh, HMw, !Nat.eqb_refl |].
  by rewrite HMb.
Qed.

(** C2 on a 1 x 2 input at keep probability 1/2. *)
Lemma fp_compute_cpu_training_mask_witness :
  fp_ready (example_layer training false (1 # 2)) (owner 1 2 4) [3; 4] /\
  exists st' mask,
    fp_compute_cpu (example_layer training false (1 # 2)) = Ok st' /\
    length mask = 2%nat /\
    memory st' !! Buffer (get_activations st')
      = Some (zip_with Qmult [3; 4] mask).
Proof.
  assert (Hready : fp_ready (example_layer training false (1 # 2))
                     (owner 1 2 4) [3; 4]).
  { unfold fp_ready. simpl. repeat split; try done. by exists [2; 0]. }
  split; [exact Hready |].
  destruct (fp_compute_cpu_training_mask
              (example_layer training false (1 # 2)) (owner 1 2 4) [3; 4]
              eq_refl eq_refl ltac:(discriminate) Hready)
    as (st' & mask & M' & Hrun & Hlen & _ & _ & Hout & _).
  by exists st', mask.
Defined.

(** ** Keep probability 1 *)

Lemma bernoulli_mask_keep_all (g : generator) (n : nat) :
  canonical g -> bernoulli_mask 1 g n = replicate n 1.
Proof.
  intros Hg. unfold bernoulli_mask.
  induction n as [|n IH]; [done |].
  rewrite seq_S, map_app, IH. simpl.
  destruct (Hg (position g + n)%nat) as [_ Hlt].
  apply Qltb_lt in Hlt. rewrite Hlt.
  change (1 / 1) with 1. by rewrite replicate_cons_app.
Qed.

(** C5 (as stated) fails.  In training mode with keep probability 1, on a
    1 x 2 input and a mask left at 1 x 1, the output does equal the input,
    but the mask handle is resized to 1 x 2 and the mask buffer, which held
    [[0]], is rewritten to [[1; 1]]. *)
Lemma fp_compute_cpu_keep_all_rewrites_mask :
  exists st',
    fp_compute_cpu example_stale_mask = Ok st' /\
    m_keep_prob example_stale_mask = 1 /\
    get_execution_mode example_stale_mask = training /\
    memory st' !! Buffer (get_activations st')
      = memory example_stale_mask
          !! Buffer (get_prev_activations example_stale_mask) /\
    m_mask example_stale_mask = Some (owner 1 1 4) /\
    m_mask st' = Some (owner 1 2 4) /\
    memory example_stale_mask !! 4%nat = Some [0] /\
    memory st' !! 4%nat = Some [1; 1] /\
    ~ (m_mask st' = m_mask example_stale_mask /\
       memory st' !! 4%nat = memory example_stale_mask !! 4%nat).
Proof.
  eexists. split; [vm_compute; reflexivity |].
  repeat split; try reflexivity.
  intros [Hm _]. discriminate Hm.
Qed.

(** C5 (amended).  In training mode with keep probability exactly 1 and a
    generator whose variates are canonical, the forward pass on the host
    leaves in the output buffer exactly the input's entries, the output
    taking the input's dimensions, and leaves the input unchanged; it does
    run the masking step: the mask is resized to the input's dimensions,
    every entry of the mask buffer is rewritten to 1, and one variate per
    entry is consumed. *)
Theorem fp_compute_cpu_keep_all (st : dropout) (M : Matrix)
    (x : list DataType) :
  get_execution_mode st = training ->
  m_keep_prob st = 1 ->
  canonical (get_fast_generator st) ->
  fp_ready st M x ->
  let input := get_prev_activations st in
  let n := (Height input * Width input)%nat in
  exists st' M',
    fp_compute_cpu st = Ok st' /\
    memory st' !! Buffer (get_activations st') = Some x /\
    same_dims (get_activations st') input = true /\
    memory st' !! Buffer input = Some x /\
    m_mask st' = Some M' /\
    same_dims M' input = true /\
    Buffer M' = Buffer M /\
    memory st' !! Buffer M' = Some (replicate n 1) /\
    get_fast_generator st' = advance n (get_fast_generator st).
Proof.
  intros Hmode Hp Hg Hready input n.
  assert (Hen : dropout_disabled st = false).
  { apply training_enabled; [done | by rewrite Hp]. }
  destruct (fp_compute_cpu_enabled st M x Hen Hready)
    as (st' & M' & O' & Hrun & Hmask & HMh & HMw & HMb & HMmem & HO & HOh &
        HOw & HOb & HOmem & HImem & Hgen).
  fold input n in HMh, HMw, HMmem, HOh, HOw, HOmem, HImem, Hgen.
  rewrite Hp, bernoulli_mask_keep_all in HMmem, HOmem by done.
  rewrite zip_with_mult_ones in HOmem.
  2:{ destruct Hready as (_&_&_&_&Hlen&_). exact Hlen. }
  exists st', M'.
  split; [done |]. split; [by rewrite HO, HOb |].
  split; [unfold same_dims; by rewrite HO, HOh, HOw, !Nat.eqb_refl |].
  split; [done |]. split; [done |].
  split; [unfold same_dims; by rewrite HMh, HMw, !Nat.eqb_refl |].
  split; [done |]. split; [by rewrite HMb | done].
Qed.

Lemma gen_alternating_canonical : canonical gen_alternating.
Proof.
  intros n. simpl. by destruct (Nat.even n).
Qed.

(** C5 (amended) on the layer with the stale mask. *)
Lemma fp_compute_cpu_keep_all_witness :
  fp_ready example_stale_mask (owner 1 1 4) [3; 4] /\
  exists st' M',
    fp_compute_cpu example_stale_mask = Ok st' /\
    memory st' !! Buffer (get_activations st') = Some [3; 4] /\
    m_mask st' = Some M' /\
    memory st' !! Buffer M' = Some [1; 1].
Proof.
  assert (Hready : fp_ready example_stale_mask (owner 1 1 4) [3; 4]).
  { unfold fp_ready. simpl. repeat split; try done. by exists [0]. }
  split; [exact Hready |].
  destruct (fp_compute_cpu_keep_all example_stale_mask (owner 1 1 4) [3; 4]
              eq_refl eq_refl gen_alternating_canonical Hready)
    as (st' & M' & Hrun & Hout & _ & _ & Hmask & _ & _ & Hmem & _).
  by exists st', M'.
Defined.

(** ** Dropout enabled: the backward pass on the host *)

Lemma Hadamard_in_place (A B : Matrix) (h : heap) (a b : list DataType) :
  same_dims A B = true ->
  Locked B = false ->
  h !! Buffer A = Some a ->
  h !! Buffer B = Some b ->
  Hadamard A B B h = Ok (B, <[Buffer B := zip_with Qmult a b]> h).
Proof.
  intros Hd Hl Ha Hb. unfold Hadamard, Resize. rewrite Hd. simpl.
  unfold same_dims in Hd. rewrite (Nat.eqb_sym (Height B)), (Nat.eqb_sym (Width B)), Hd.
  simpl. unfold LockedBuffer, store, MutableBuffer. by rewrite Ha, Hb, Hl.
Qed.

Lemma bp_compute_cpu_enabled (st : dropout) (M : Matrix)
    (dy m dx : list DataType) :
  dropout_disabled st = false ->
  bp_ready st M dy m dx ->
  bp_compute_cpu st
  = Ok (set_mask M
          (set_memory
             (<[Buffer (get_error_signals st) :=
                  zip_with Qplus dx (zip_with Qmult dy m)]>
                (<[Buffer M := zip_with Qmult dy m]> (memory st))) st)).
Proof.
  intros Hen (Hmask & HMl & Hd1 & Hd2 & Hdy & Hm & Hdx & Hl & HMI & HMO & HIO).
  unfold bp_compute_cpu, deref_mask. rewrite Hen, Hmask, bind_Ok.
  rewrite (Hadamard_in_place _ _ _ dy m), bind_Ok by done. cbv beta iota.
  rewrite (Axpy_1 _ _ _ (zip_with Qmult dy m) dx); try done.
  - by rewrite lookup_insert_eq.
  - by rewrite lookup_insert_ne.
Qed.

Lemma bp_ready_again (st : dropout) (M : Matrix) (dy m dx : list DataType)
    (h : heap) (m' dx' : list DataType) :
  bp_ready st M dy m dx ->
  h = <[Buffer (get_error_signals st) := dx']>
        (<[Buffer M := m']> (memory st)) ->
  bp_ready (set_mask M (set_memory h st)) M dy m' dx'.
Proof.
  intros (Hmask & HMl & Hd1 & Hd2 & Hdy & Hm & Hdx & Hl & HMI & HMO & HIO) ->.
  unfold bp_ready. simpl. repeat split; try done.
  - rewrite !lookup_insert_ne; [done | intros E; by apply HMO | done].
  - rewrite lookup_insert_ne; [| intros E; by apply HMI].
    by rewrite lookup_insert_eq.
  - by rewrite lookup_insert_eq.
Qed.

(** C10.  After the backward pass on the host has run in training mode with
    dropout enabled, the mask handle is the same and its buffer holds the
    entrywise product of the output gradient and the mask that was there:
    the forward mask is gone wherever that product differs from it.  The
    input gradient has accumulated that product.  A second backward pass
    then succeeds and accumulates the output gradient times the overwritten
    mask, that is the output gradient squared times the forward mask. *)
Theorem bp_compute_cpu_overwrites_mask (st : dropout) (M : Matrix)
    (dy m dx : list DataType) :
  get_execution_mode st = training ->
  0 <= m_keep_prob st ->
  bp_ready st M dy m dx ->
  let gwi := Buffer (get_error_signals st) in
  let dym := zip_with Qmult dy m in
  exists st1 st2,
    bp_compute_cpu st = Ok st1 /\
    m_mask st1 = Some M /\
    memory st1 !! Buffer M = Some dym /\
    (forall i gi mi,
       dy !! i = Some gi -> m !! i = Some mi -> ~ gi * mi == mi ->
       memory st1 !! Buffer M ≠ Some m) /\
    memory st1 !! gwi = Some (zip_with Qplus dx dym) /\
    bp_compute_cpu st1 = Ok st2 /\
    memory st2 !! Buffer M = Some (zip_with Qmult dy dym) /\
    memory st2 !! gwi
      = Some (zip_with Qplus (zip_with Qplus dx dym) (zip_with Qmult dy dym)).
Proof.
  intros Hmode Hp Hready gwi dym.
  assert (Hen : dropout_disabled st = false) by by apply training_enabled.
  pose proof (bp_compute_cpu_enabled st M dy m dx Hen Hready) as Hrun1.
  set (st1 := set_mask M _) in Hrun1.
  assert (Hready1 : bp_ready st1 M dy dym (zip_with Qplus dx dym)).
  { by apply (bp_ready_again st M dy m dx _ dym (zip_with Qplus dx dym)). }
  pose proof (bp_compute_cpu_enabled st1 M dy dym _ Hen Hready1) as Hrun2.
  destruct Hready as (_ & _ & _ & _ & _ & _ & _ & _ & HMI & _).
  assert (HM1 : memory st1 !! Buffer M = Some dym).
  { simpl. rewrite lookup_insert_ne by (intros E; by apply HMI).
    by rewrite lookup_insert_eq. }
  eexists st1, _. split; [exact Hrun1 |]. split; [done |].
  split; [exact HM1 |].
  split.
  { intros i gi mi Hgi Hmi Hne. rewrite HM1. intros [= E].
    assert (Hpi : dym !! i = Some (gi * mi)).
    { apply lookup_zip_with_Some. by eexists _, _. }
    rewrite E, Hmi in Hpi. injection Hpi as Hpi. apply Hne.
    by rewrite <- Hpi. }
  split; [simpl; by rewrite lookup_insert_eq |].
  split; [exact Hrun2 |]. simpl.
  split.
  - rewrite lookup_insert_ne by (intros E; by apply HMI).
    by rewrite lookup_insert_eq.
  - by rewrite lookup_insert_eq.
Qed.

(** C10 on 1 x 2 matrices: output gradient [[2; 2]], forward mask [[2; 0]],
    input gradient [[10; 20]]. *)
Lemma bp_compute_cpu_overwrites_mask_witness :
  bp_ready (example_layer training false (1 # 2)) (owner 1 2 4)
    [2; 2] [2; 0] [10; 20] /\
  exists st1 st2,
    bp_compute_cpu (example_layer training false (1 # 2)) = Ok st1 /\
    memory st1 !! 4%nat = Some [4; 0] /\
    memory st1 !! 4%nat ≠ Some [2; 0] /\
    memory st1 !! 3%nat = Some [14; 20] /\
    bp_compute_cpu st1 = Ok st2 /\
    memory st2 !! 3%nat = Some [22; 20].
Proof.
  assert (Hready : bp_ready (example_layer training false (1 # 2))
                     (owner 1 2 4) [2; 2] [2; 0] [10; 20]).
  { unfold bp_ready. simpl. repeat split; done. }
  split; [exact Hready |].
  destruct (bp_compute_cpu_overwrites_mask
              (example_layer training false (1 # 2)) (owner 1 2 4)
              [2; 2] [2; 0] [10; 20] eq_refl ltac:(discriminate) Hready)
    as (st1 & st2 & Hrun1 & _ & HM & Hne & Hdx & Hrun2 & _ & Hdx2).
  exists st1, st2. split; [exact Hrun1 |]. split; [exact HM |].
  split; [apply (Hne 0%nat 2 2); [done | done | discriminate] |].
  by split.
Defined.

(** ** The accelerator paths *)

(** Whatever the accelerator library computes, a successful enabled backward
    pass on non-empty matrices stores the kernel's [dx] over the input
    gradient, and the one launch pairs the output gradient's buffer with the
    descriptor configured from the input gradient, and conversely. *)
Lemma bp_compute_gpu_enabled (st st' : dropout) :
  dropout_disabled st = false ->
  (0 <? Height (get_error_signals st))%nat
    && (0 <? Width (get_error_signals st))%nat = true ->
  bp_compute_gpu st = Ok st' ->
  let gwo := get_prev_error_signals st in
  let gwi := get_error_signals st in
  exists cudnn dy space dx,
    m_cudnn st = Some cudnn /\
    memory st !! Buffer gwo = Some dy /\
    memory st !! Buffer (m_reserve_space st) = Some space /\
    Locked gwi = false /\
    cudnnDropoutBackward cudnn (m_dropout_cudnn_desc st)
      (Some (tensor_desc_of gwi)) dy (Some (tensor_desc_of gwo)) space
      (Height (m_reserve_space st) * sizeof_DataType) = Ok dx /\
    memory st' = <[Buffer gwi := dx]> (memory st) /\
    cudnn_calls st'
    = DropoutBackward_call (Some (tensor_desc_of gwi)) (Buffer gwo)
        (Some (tensor_desc_of gwo)) (Buffer gwi) :: cudnn_calls st.
Proof.
  intros Hen Hne. unfold bp_compute_gpu. rewrite Hen, Hne.
  unfold get_handle, LockedBuffer, MutableBuffer, set_tensor_desc.
  destruct (m_cudnn st) as [cudnn|]; [|done]. simpl.
  destruct (memory st !! Buffer (get_prev_error_signals st)) as [dy|];
    [|done]. simpl.
  destruct (Locked (get_error_signals st)); [done |]. simpl.
  destruct (memory st !! Buffer (m_reserve_space st)) as [space|]; [|done].
  simpl.
  destruct (cudnnDropoutBackward _ _ _ _ _ _ _) as [dx|] eqn:Hk; [|done].
  simpl. intros [= <-]. by exists cudnn, dy, space, dx.
Qed.

(** So what the input gradient held before the pass plays no part in what it
    holds after: starting from any other contents [l] gives the same result. *)
Lemma bp_compute_gpu_forgets_error_signal (st st1 : dropout)
    (l : list DataType) :
  dropout_disabled st = false ->
  (0 <? Height (get_error_signals st))%nat
    && (0 <? Width (get_error_signals st))%nat = true ->
  Buffer (get_error_signals st) ≠ Buffer (get_prev_error_signals st) ->
  Buffer (get_error_signals st) ≠ Buffer (m_reserve_space st) ->
  bp_compute_gpu st = Ok st1 ->
  exists st2,
    bp_compute_gpu
      (set_memory (<[Buffer (get_error_signals st) := l]> (memory st)) st)
    = Ok st2 /\
    memory st2 !! Buffer (get_error_signals st)
    = memory st1 !! Buffer (get_error_signals st).
Proof.
  intros Hen Hne Hgo Hgr Hrun.
  destruct (bp_compute_gpu_enabled st st1 Hen Hne Hrun)
    as (cudnn & dy & space & dx & Hc & Hdy & Hsp & Hl & Hk & Hmem & _).
  unfold bp_compute_gpu. simpl.
  change (dropout_disabled (set_memory _ st)) with (dropout_disabled st).
  rewrite Hen, Hne.
  unfold get_handle, LockedBuffer, MutableBuffer, set_tensor_desc. simpl.
  rewrite Hc, Hl, !lookup_insert_ne, Hdy, Hsp by done. simpl.
  rewrite Hk. simpl. eexists. split; [reflexivity |]. simpl.
  by rewrite Hmem, insert_insert_eq, !lookup_insert_eq.
Qed.

(** A successful forward pass launches at most one kernel, and pairs each
    buffer with the descriptor configured from its own matrix. *)
Lemma fp_compute_gpu_call (st st' : dropout) :
  fp_compute_gpu st = Ok st' ->
  let input := get_prev_activations st in
  let output := get_activations st in
  cudnn_calls st' = cudnn_calls st \/
  cudnn_calls st'
  = DropoutForward_call (Some (tensor_desc_of input)) (Buffer input)
      (Some (tensor_desc_of output)) (Buffer output) :: cudnn_calls st.
Proof.
  unfold fp_compute_gpu, get_handle, LockedBuffer, MutableBuffer,
    set_tensor_desc.
  destruct (dropout_disabled st); [intros [= <-]; by left |].
  destruct (_ && _); [intros [= <-]; by left |].
  destruct (m_cudnn st) as [cudnn|]; [|done]. simpl.
  destruct (cudnnDropoutGetReserveSpaceSize _ _) as [size|]; [|done]. simpl.
  destruct (if (_ <? size)%nat then _ else _) as [[reserve h1]|]; [|done].
  simpl.
  destruct (h1 !! Buffer (get_prev_activations st)) as [x|]; [|done]. simpl.
  destruct (Locked (get_activations st)); [done |]. simpl.
  destruct (Locked reserve); [done |]. simpl.
  destruct (h1 !! Buffer (m_states st)) as [states|]; [|done]. simpl.
  destruct (cudnnDropoutForward _ _ _ _ _ _ _) as [[[y space] states']|];
    [|done].
  simpl. intros [= <-]. by right.
Qed.

(** C1 (at a failing input).  On the accelerator, in training mode at keep
    probability 1/2, with the input gradient holding [[10; 20]], the output
    gradient [[2; 2]] and the kept flags [[1; 0]]: the backward pass leaves
    [[4; 0]] in the input gradient, the kernel's result alone, where the
    host path on the same data accumulates to [[14; 20]]; with dropout
    disabled both devices accumulate to [[12; 22]]. *)
Theorem bp_compute_gpu_overwrites_error_signal :
  memory (example_layer training true (1 # 2)) !! 3%nat = Some [10; 20] /\
  (exists st', bp_compute (example_layer training true (1 # 2)) = Ok st' /\
               memory st' !! 3%nat = Some [4; 0]) /\
  (exists st', bp_compute (example_layer training false (1 # 2)) = Ok st' /\
               memory st' !! 3%nat = Some [14; 20]) /\
  (exists st', bp_compute (example_layer testing true (1 # 2)) = Ok st' /\
               memory st' !! 3%nat = Some [12; 22]) /\
  (exists st', bp_compute (example_layer testing false (1 # 2)) = Ok st' /\
               memory st' !! 3%nat = Some [12; 22]).
Proof.
  split; [reflexivity |].
  repeat split; eexists; (split; [vm_compute; reflexivity | reflexivity]).
Qed.

(** C7 (at a failing input).  On the accelerator in training mode, the
    output gradient being a 1 x 2 view of leading dimension 3 and the input
    gradient a 1 x 2 owner of leading dimension 1: the backward launch hands
    the kernel the output gradient's buffer with the descriptor configured
    from the input gradient, and the input gradient's buffer with the one
    configured from the output gradient; the two descriptors differ.  The
    forward launch on the same layer pairs each buffer with its own
    descriptor. *)
Theorem bp_compute_gpu_descriptors_swapped :
  let gwo := get_prev_error_signals example_strided in
  let gwi := get_error_signals example_strided in
  let input := get_prev_activations example_strided in
  let output := get_activations example_strided in
  (exists st',
     bp_compute_gpu example_strided = Ok st' /\
     cudnn_calls st'
     = [DropoutBackward_call (Some (tensor_desc_of gwi)) (Buffer gwo)
          (Some (tensor_desc_of gwo)) (Buffer gwi)] /\
     m_gradient_wrt_output_cudnn_desc st' = Some (tensor_desc_of gwi) /\
     m_gradient_wrt_input_cudnn_desc st' = Some (tensor_desc_of gwo)) /\
  tensor_desc_of gwi ≠ tensor_desc_of gwo /\
  (exists st',
     fp_compute_gpu example_strided = Ok st' /\
     cudnn_calls st'
     = [DropoutForward_call (Some (tensor_desc_of input)) (Buffer input)
          (Some (tensor_desc_of output)) (Buffer output)]).
Proof.
  split; [| split].
  - eexists. split; [vm_compute; reflexivity |]. by repeat split.
  - discriminate.
  - eexists. split; [vm_compute; reflexivity |]. reflexivity.
Qed.

(** ** The covariance layer's dimension check *)

Lemma append_cons (a : Ascii.ascii) (s t : string) :
  String a s +:+ t = String a (s +:+ t).
Proof. reflexivity. Qed.

Lemma append_assoc (s t u : string) : (s +:+ t) +:+ u = s +:+ (t +:+ u).
Proof.
  induction s as [|a s IH]; [done |]. by rewrite !append_cons, IH.
Qed.

Lemma append_nil_r (s : string) : s +:+ EmptyString = s.
Proof.
  induction s as [|a s IH]; [done |]. by rewrite append_cons, IH.
Qed.

Lemma concat_cons_cons (sep h h' : string) (t : list string) :
  String.concat sep (h :: h' :: t)
  = h +:+ sep +:+ String.concat sep (h' :: t).
Proof. reflexivity. Qed.

(** The inner loop writes the dimensions joined by [" x "]. *)
Lemma write_dims_later (err : string) (j : nat) (dims : list Z) :
  (0 < j)%nat ->
  write_dims err j dims
  = match dims with
    | [] => err
    | _ => err +:+ " x " +:+ dims_text dims
    end.
Proof.
  revert err j. induction dims as [|d dims IH]; intros err j Hj; [done |].
  simpl. destruct j as [|j]; [lia |]. simpl.
  rewrite IH by lia. unfold dims_text.
  destruct dims as [|d' dims]; [done |].
  rewrite !map_cons, (concat_cons_cons _ (pretty d)). by rewrite !append_assoc.
Qed.

Lemma write_dims_text (err : string) (dims : list Z) :
  write_dims err 0 dims = err +:+ dims_text dims.
Proof.
  destruct dims as [|d dims]; [by rewrite append_nil_r |].
  simpl. rewrite write_dims_later by lia. unfold dims_text.
  destruct dims as [|d' dims]; [done |].
  rewrite !map_cons, (concat_cons_cons _ (pretty d)). by rewrite !append_assoc.
Qed.

(** The outer loop reads the layer without changing it and writes the
    parents from [i] on, joined by commas. *)
Lemma write_parents_later (l : covariance_layer) (rest : list parent_layer) :
  forall (i : nat) (err : string),
    (0 < i)%nat ->
    drop i (get_parent_layers (base l)) = rest ->
    write_parents (length rest) i err l
    = (l, Ok match rest with
             | [] => err
             | _ => err +:+ ", " +:+ String.concat ", " (map parent_text rest)
             end).
Proof.
  induction rest as [|p rest IH]; intros i err Hi Hdrop; [done |].
  assert (Hp : get_parent_layers (base l) !! i = Some p).
  { rewrite <- (Nat.add_0_r i), <- lookup_drop, Hdrop. done. }
  assert (Hrest : drop (Datatypes.S i) (get_parent_layers (base l)) = rest).
  { rewrite (drop_S _ _ _ Hp) in Hdrop. by injection Hdrop. }
  destruct i as [|i]; [lia |].
  cbn [write_parents length].
  unfold mbind, layer_op_bind, get_input_dims, parent_get_name.
  rewrite Hp. cbn beta iota. rewrite Hp. cbn beta iota.
  rewrite write_dims_text, (IH _ _ (Nat.lt_0_succ _) Hrest). do 2 f_equal.
  cbn [Nat.ltb Nat.leb].
  destruct rest as [|p' rest].
  - change (String.concat ", " (map parent_text [p])) with (parent_text p).
    unfold parent_text. by rewrite !append_assoc.
  - rewrite !map_cons, (concat_cons_cons _ (parent_text p)).
    unfold parent_text. by rewrite !append_assoc.
Qed.

Lemma write_parents_text (l : covariance_layer) (err : string) :
  write_parents (length (get_parent_layers (base l))) 0 err l
  = (l, Ok (err +:+ String.concat ", "
                      (map parent_text (get_parent_layers (base l))))).
Proof.
  destruct (get_parent_layers (base l)) as [|p rest] eqn:Hps.
  { simpl. by rewrite append_nil_r. }
  cbn [write_parents length].
  unfold mbind, layer_op_bind, get_input_dims, parent_get_name.
  rewrite Hps. cbn [lookup list_lookup]. cbn beta iota.
  rewrite Hps. cbn [lookup list_lookup]. cbn beta iota.
  rewrite write_dims_text.
  rewrite (write_parents_later l rest 1); [| lia | by rewrite Hps].
  do 2 f_equal. cbn [Nat.ltb Nat.leb].
  destruct rest as [|p' rest].
  - change (String.concat ", " (map parent_text [p])) with (parent_text p).
    unfold parent_text. by rewrite !append_assoc.
  - rewrite !map_cons, (concat_cons_cons _ (parent_text p)).
    unfold parent_text. by rewrite !append_assoc.
Qed.

Lemma is_substring_refl (s : string) : is_substring s s.
Proof. exists EmptyString, EmptyString. by rewrite append_nil_r. Qed.

Lemma is_substring_concat (sep x : string) (l : list string) :
  x ∈ l -> is_substring x (String.concat sep l).
Proof.
  induction l as [|h t IH]; [by intros ?%elem_of_nil |].
  destruct t as [|h' t].
  - intros ->%list_elem_of_singleton. apply is_substring_refl.
  - rewrite concat_cons_cons. intros [-> | Hin]%elem_of_cons.
    + exists EmptyString, (sep +:+ String.concat sep (h' :: t)). done.
    + destruct (IH Hin) as (a & b & ->).
      exists (h +:+ sep +:+ a), b. by rewrite !append_assoc.
Qed.

Section covariance_setup.

Variable DataReaderMetaData : Type.
Variable get_type : string.
Variable data_type_layer_setup_dims :
  DataReaderMetaData -> Layer -> Layer * result unit.

(** C6.  Let the base class's [setup_dims] have succeeded, leaving the layer
    with at least two parents.  When the first two parents' shapes differ,
    [setup_dims] raises; the layer object it leaves has its output shape set
    and its auxiliary matrices exactly as they were (none is allocated by
    it); the message is the layer's type and name followed by every parent,
    each with its name and its dimensions, so each parent's description
    occurs in it.  When the two shapes are equal, [setup_dims] returns
    normally with the same object. *)
Theorem setup_dims_checks_parent_shapes (dr_metadata : DataReaderMetaData)
    (l : covariance_layer) (b : Layer) (p0 p1 : parent_layer)
    (rest : list parent_layer) :
  data_type_layer_setup_dims dr_metadata (base l) = (b, Ok ()) ->
  get_parent_layers b = p0 :: p1 :: rest ->
  let parents := p0 :: p1 :: rest in
  let l' :=
    {| base := {| get_name := get_name b;
                  get_parent_layers := parents;
                  get_output_dims := [1%Z];
                  prev_activations_DistData := prev_activations_DistData b |};
       m_means := m_means l;
       m_workspace := m_workspace l |} in
  (parent_output_dims p0 ≠ parent_output_dims p1 ->
   exists msg,
     setup_dims DataReaderMetaData get_type data_type_layer_setup_dims
       dr_metadata l = (l', Error msg) /\
     msg = get_type +:+ " layer " +:+ dquote +:+ get_name b +:+ dquote
             +:+ " has input tensors with different dimensions ("
             +:+ String.concat ", " (map parent_text parents) +:+ ")" /\
     (forall p, p ∈ parents -> is_substring (parent_text p) msg)) /\
  (parent_output_dims p0 = parent_output_dims p1 ->
   setup_dims DataReaderMetaData get_type data_type_layer_setup_dims
     dr_metadata l = (l', Ok ())).
Proof.
  intros Hbase Hps parents l'.
  assert (Hrun : forall k : list Z -> list Z -> layer_op unit,
            (_ ← call_base (data_type_layer_setup_dims dr_metadata);
             _ ← set_output_dims [1%Z];
             dims0 ← get_input_dims 0;
             dims1 ← get_input_dims 1;
             k dims0 dims1) l
            = k (parent_output_dims p0) (parent_output_dims p1) l').
  { intros k. unfold mbind, layer_op_bind, call_base, set_output_dims,
      get_input_dims.
    rewrite Hbase. cbn. by rewrite Hps. }
  split.
  - intros Hne. eexists. unfold setup_dims. rewrite Hrun.
    rewrite decide_True by done.
    unfold mbind at 1, layer_op_bind at 1, this_get_name. cbn beta iota.
    unfold mbind at 1, layer_op_bind at 1, get_num_parents. cbn beta iota.
    unfold mbind at 1, layer_op_bind at 1.
    rewrite write_parents_text. cbn beta iota. unfold LBANN_ERROR.
    split; [reflexivity |].
    change (get_parent_layers (base l')) with parents.
    change (get_name (base l')) with (get_name b).
    split.
    + rewrite !append_assoc. reflexivity.
    + intros p Hp.
      destruct (is_substring_concat ", " (parent_text p)
                  (map parent_text parents)) as (pre & post & Hcat).
      { apply list_elem_of_fmap. by exists p. }
      rewrite Hcat.
      exists (get_type +:+ " layer " +:+ dquote +:+ get_name b +:+ dquote
                +:+ " has input tensors with different dimensions ("
                +:+ pre), (post +:+ ")").
      rewrite !append_assoc. reflexivity.
  - intros Heq. unfold setup_dims. rewrite Hrun.
    by rewrite decide_False by (intros Hne; by apply Hne).
Qed.

(** The auxiliary matrices are what [setup_data] instantiates, once the base
    class's [setup_data] has returned. *)
Lemma setup_data_allocates
    (data_type_layer_setup_data : nat -> Layer -> Layer * result unit)
    (max_mini_batch_size : nat) (l : covariance_layer) (b : Layer) :
  data_type_layer_setup_data max_mini_batch_size (base l) = (b, Ok ()) ->
  let dist_data :=
    {| colDist := STAR; rowDist := rowDist (prev_activations_DistData b) |} in
  setup_data data_type_layer_setup_data max_mini_batch_size l
  = ({| base := b; m_means := Some dist_data;
        m_workspace := Some dist_data |}, Ok ()).
Proof.
  intros Hbase dist_data.
  unfold setup_data, mbind, layer_op_bind, call_base. by rewrite Hbase.
Qed.

End covariance_setup.

(** C6 on a layer below parents "a" of shape 4 x 4 and "b" of shape 4 x 5. *)
Lemma setup_dims_checks_parent_shapes_witness :
  exists l',
    setup_dims unit "covariance" example_base_setup_dims ()
      (example_covariance [4; 5]%Z)
    = (l', Error ("covariance layer " +:+ dquote +:+ "cov" +:+ dquote
                    +:+ " has input tensors with different dimensions (layer "
                    +:+ dquote +:+ "a" +:+ dquote +:+ " outputs 4 x 4, layer "
                    +:+ dquote +:+ "b" +:+ dquote +:+ " outputs 4 x 5)")) /\
    m_means l' = None /\ m_workspace l' = None.
Proof.
  destruct (setup_dims_checks_parent_shapes unit "covariance"
              example_base_setup_dims () (example_covariance [4; 5]%Z)
              _ _ _ _ eq_refl eq_refl) as [Hdiff _].
  destruct (Hdiff ltac:(discriminate)) as (msg & Hrun & -> & _).
  eexists. split; [exact Hrun |]. by split.
Defined.

(** * Further properties *)

(** ** The rectified-linear scalar *)

Lemma relu_cases (x : DataType) :
  (0 < x /\ relu_layer.activation x = x /\
   relu_layer.activation_derivative x = 1) \/
  (x <= 0 /\ relu_layer.activation x = 0 /\
   relu_layer.activation_derivative x = 0).
Proof.
  unfold relu_layer.activation, relu_layer.activation_derivative.
  destruct (Qltb 0 x) eqn:E.
  - left. by apply Qltb_lt in E.
  - right. by apply Qltb_ge in E.
Qed.

(** X1.  The rectified-linear scalar and its derivative are both
    non-decreasing. *)
Theorem relu_monotone (x y : DataType) :
  x <= y ->
  relu_layer.activation x <= relu_layer.activation y /\
  relu_layer.activation_derivative x <= relu_layer.activation_derivative y.
Proof.
  intros H.
  destruct (relu_cases x) as [(? & -> & ->) | (? & -> & ->)],
           (relu_cases y) as [(? & -> & ->) | (? & -> & ->)]; split; lra.
Qed.

Lemma relu_monotone_witness :
  -1 <= 2 /\
  relu_layer.activation (-1) <= relu_layer.activation 2 /\
  relu_layer.activation_derivative (-1)
    <= relu_layer.activation_derivative 2.
Proof.
  split; [discriminate |]. apply (relu_monotone (-1) 2). discriminate.
Defined.




(** ** The dropout layer on the host *)

Lemma fp_compute_cpu_enabled_state (st : dropout) (M : Matrix)
    (x : list DataType) :
  dropout_disabled st = false ->
  fp_ready st M x ->
  let input := get_prev_activations st in
  let n := (Height input * Width input)%nat in
  let mask := bernoulli_mask (m_keep_prob st) (get_fast_generator st) n in
  exists M' O',
    fp_compute_cpu st
    = Ok (set_activations O'
            (set_mask M'
               (set_fast_generator (advance n (get_fast_generator st))
                  (set_memory
                     (<[Buffer (get_activations st) := zip_with Qmult x mask]>
                        (<[Buffer M := mask]> (memory st))) st)))) /\
    same_dims M' input = true /\ Buffer M' = Buffer M /\
    viewType M' = OWNER /\
    same_dims O' input = true /\ Buffer O' = Buffer (get_activations st) /\
    viewType O' = OWNER.
Proof.
  intros Hen (Hmask & HMown & (lm & HM & Hlm) & Hx & Hlen & HOown &
              [lo HO] & HMI & HMO & HOI) input n mask.
  unfold fp_compute_cpu, deref_mask. rewrite Hen, Hmask, bind_Ok.
  destruct (Resize_owner (Height input) (Width input) M (memory st) lm
              HMown HM)
    as (M' & lm' & HR & HM'h & HM'w & HM'b & HM'v & Hlm').
  specialize (Hlm' Hlm). fold input. rewrite HR, bind_Ok. cbv beta iota.
  rewrite (EntrywiseMap_draw M' _ _ _ _ lm'), bind_Ok;
    [| done | by rewrite HM'b, lookup_insert_eq].
  cbv beta iota. rewrite HM'b, insert_insert_eq, Hlm'.
  change (map _ (seq 0 (Height input * Width input))) with mask.
  set (h2 := <[Buffer M := mask]> (memory st)).
  destruct (Hadamard_owner input M' (get_activations st) h2 x mask lo)
    as (O' & HH & HO'h & HO'w & HO'b & HO'v).
  { unfold same_dims. by rewrite HM'h, HM'w, !Nat.eqb_refl. }
  { done. }
  { unfold h2. by rewrite lookup_insert_ne. }
  { unfold h2. by rewrite HM'b, lookup_insert_eq. }
  { unfold h2. by rewrite lookup_insert_ne. }
  { done. }
  { rewrite HM'b. intros E. by apply HMO. }
  rewrite HH, bind_Ok. cbv beta iota.
  exists M', O'. split; [reflexivity |].
  unfold same_dims. by rewrite HM'h, HM'w, HO'h, HO'w, !Nat.eqb_refl.
Qed.


Lemma example_fp_ready :
  fp_ready (example_layer training false (1 # 2)) (owner 1 2 4) [3; 4].
Proof.
  unfold fp_ready. simpl. repeat split; try done. by exists [2; 0].
Qed.


(** X5.  A training-mode forward pass on the host followed by the backward
    pass uses the mask the forward pass drew: the input gradient grows by the
    output gradient times that mask, entry by entry, while the output still
    holds input times mask, the output gradient is unchanged and the
    generator has advanced by one variate per entry, once. *)
Theorem fp_then_bp_uses_forward_mask (st : dropout) (M : Matrix)
    (x dy dx : list DataType) :
  dropout_disabled st = false ->
  fp_ready st M x ->
  gradients_ready st M dy dx ->
  let input := get_prev_activations st in
  let n := (Height input * Width input)%nat in
  let mask := bernoulli_mask (m_keep_prob st) (get_fast_generator st) n in
  exists st1 st2,
    fp_compute_cpu st = Ok st1 /\
    bp_compute_cpu st1 = Ok st2 /\
    memory st1 !! Buffer M = Some mask /\
    memory st2 !! Buffer (get_error_signals st)
      = Some (zip_with Qplus dx (zip_with Qmult dy mask)) /\
    memory st2 !! Buffer (get_activations st) = Some (zip_with Qmult x mask) /\
    memory st2 !! Buffer (get_prev_error_signals st) = Some dy /\
    get_fast_generator st2 = advance n (get_fast_generator st).
Proof.
  intros Hen Hready (Hd1 & Hd2 & Hdy & Hdx & Hl & HyM & HyO & HxM & HxO & Hxy)
    input n mask.
  destruct (fp_compute_cpu_enabled_state st M x Hen Hready)
    as (M' & O' & Hrun & HM'd & HM'b & HM'v & HO'd & HO'b & HO'v).
  fold input n mask in Hrun, HM'd, HO'd.
  set (st1 := set_activations O' _) in Hrun.
  destruct Hready as (_ & _ & _ & _ & _ & _ & _ & _ & HMO & _).
  assert (Hready1 : bp_ready st1 M' dy mask dx).
  { unfold bp_ready, st1. simpl. rewrite HM'b.
    unfold same_dims in *. fold input in Hd1, Hd2.
    apply andb_true_iff in Hd1 as [?%Nat.eqb_eq ?%Nat.eqb_eq].
    apply andb_true_iff in Hd2 as [?%Nat.eqb_eq ?%Nat.eqb_eq].
    apply andb_true_iff in HM'd as [?%Nat.eqb_eq ?%Nat.eqb_eq].
    repeat split; try done;
      first [ unfold Locked; by rewrite HM'v
            | apply andb_true_iff; split; apply Nat.eqb_eq; congruence
            | by rewrite !lookup_insert_ne by done
            | rewrite lookup_insert_ne by done; by rewrite lookup_insert_eq
            | intros E; by apply HxM
            | intros E; by apply HyM ]. }
  pose proof (bp_compute_cpu_enabled st1 M' dy mask dx Hen Hready1) as Hrun2.
  eexists st1, _. split; [exact Hrun |]. split; [exact Hrun2 |].
  unfold st1. simpl. rewrite HM'b.
  assert (Buffer M ≠ Buffer (get_prev_error_signals st))
    by (intros E; by apply HyM).
  assert (Buffer M ≠ Buffer (get_error_signals st))
    by (intros E; by apply HxM).
  assert (Buffer (get_activations st) ≠ Buffer (get_error_signals st))
    by (intros E; by apply HxO).
  assert (Buffer (get_activations st) ≠ Buffer (get_prev_error_signals st))
    by (intros E; by apply HyO).
  assert (Buffer (get_activations st) ≠ Buffer M) by (intros E; by apply HMO).
  repeat split; by simplify_map_eq.
Qed.

Lemma fp_then_bp_uses_forward_mask_witness :
  gradients_ready (example_layer training false (1 # 2)) (owner 1 2 4)
    [2; 2] [10; 20] /\
  exists st1 st2,
    fp_compute_cpu (example_layer training false (1 # 2)) = Ok st1 /\
    bp_compute_cpu st1 = Ok st2 /\
    memory st1 !! 4%nat = Some [2; 0] /\
    memory st2 !! 3%nat = Some [14; 20].
Proof.
  assert (Hg : gradients_ready (example_layer training false (1 # 2))
                 (owner 1 2 4) [2; 2] [10; 20]).
  { unfold gradients_ready. simpl. repeat split; done. }
  split; [exact Hg |].
  destruct (fp_then_bp_uses_forward_mask
              (example_layer training false (1 # 2)) (owner 1 2 4)
              [3; 4] [2; 2] [10; 20] eq_refl example_fp_ready Hg)
    as (st1 & st2 & Hrun1 & Hrun2 & Hmask & Hdx & _).
  by exists st1, st2.
Defined.



Lemma Axpy_Ok (alpha : DataType) (X Y : Matrix) (h h' : heap) :
  Axpy alpha X Y h = Ok h' ->
  forall l, l ≠ Buffer Y -> h' !! l = h !! l.
Proof.
  unfold Axpy, LockedBuffer, store, MutableBuffer.
  destruct (negb (same_dims X Y)); [done |].
  destruct (h !! Buffer X) as [x|]; [| done]. simpl.
  destruct (h !! Buffer Y) as [y|]; [| done]. simpl.
  destruct (Locked Y); [done |]. simpl.
  intros [= <-] l Hl. by rewrite lookup_insert_ne.
Qed.

Lemma Hadamard_in_place_Ok (A B B' : Matrix) (h h' : heap) :
  Hadamard A B B h = Ok (B', h') ->
  B' = B /\ forall l, l ≠ Buffer B -> h' !! l = h !! l.
Proof.
  unfold Hadamard, Resize.
  destruct (same_dims A B) eqn:Hd; [| done]. simpl.
  unfold same_dims in Hd.
  rewrite (Nat.eqb_sym (Height B)), (Nat.eqb_sym (Width B)), Hd. simpl.
  unfold LockedBuffer, store, MutableBuffer.
  destruct (h !! Buffer A) as [a|]; [| done]. simpl.
  destruct (h !! Buffer B) as [b|]; [| done]. simpl.
  destruct (Locked B); [done |]. simpl.
  intros [= <- <-]. split; [done |].
  intros l Hl. by rewrite lookup_insert_ne.
Qed.

(** X7.  A backward pass that returns, on either device, enabled or not,
    has changed at most the input gradient's buffer and the mask's buffer,
    and only the input gradient's when it ran on the accelerator or with
    dropout disabled.  The mask handle, the generator, the four matrix
    handles, the reserve space and the forward descriptors are as before. *)
Theorem bp_compute_frame (st st' : dropout) :
  bp_compute st = Ok st' ->
  (forall l,
     l ≠ Buffer (get_error_signals st) ->
     (forall M, m_mask st = Some M -> l ≠ Buffer M) ->
     memory st' !! l = memory st !! l) /\
  (using_gpus st = true \/ dropout_disabled st = true ->
   forall l, l ≠ Buffer (get_error_signals st) ->
             memory st' !! l = memory st !! l) /\
  m_mask st' = m_mask st /\
  get_fast_generator st' = get_fast_generator st /\
  get_activations st' = get_activations st /\
  get_prev_activations st' = get_prev_activations st /\
  get_error_signals st' = get_error_signals st /\
  get_prev_error_signals st' = get_prev_error_signals st /\
  m_reserve_space st' = m_reserve_space st /\
  m_input_cudnn_desc st' = m_input_cudnn_desc st /\
  m_output_cudnn_desc st' = m_output_cudnn_desc st.
Proof.
  unfold bp_compute, bp_compute_gpu, bp_compute_cpu.
  destruct (dropout_disabled st) eqn:Hen.
  - assert (Hrun : forall r,
              (Axpy 1 (get_prev_error_signals st) (get_error_signals st)
                 (memory st) ≫= λ h, Ok (set_memory h st)) = r ->
              (if using_gpus st then r else r) = Ok st' ->
              exists h, Axpy 1 (get_prev_error_signals st)
                          (get_error_signals st) (memory st) = Ok h /\
                        st' = set_memory h st).
    { intros r <-. destruct (using_gpus st);
        (destruct (Axpy _ _ _ _) as [h|]; [| done]); simpl;
        intros [= <-]; by exists h. }
    intros H. destruct (Hrun _ eq_refl H) as (h & HA & ->). simpl.
    pose proof (Axpy_Ok _ _ _ _ _ HA) as Hframe.
    repeat split; try done; intros; by apply Hframe.
  - destruct (using_gpus st) eqn:Hgpu.
    + destruct (_ && _); [| intros [= <-]; by repeat split].
      unfold get_handle, LockedBuffer, MutableBuffer, set_tensor_desc.
      destruct (m_cudnn st) as [cudnn|]; [|done]. simpl.
      destruct (memory st !! Buffer (get_prev_error_signals st)) as [dy|];
        [|done]. simpl.
      destruct (Locked (get_error_signals st)); [done |]. simpl.
      destruct (memory st !! Buffer (m_reserve_space st)) as [space|];
        [|done]. simpl.
      destruct (cudnnDropoutBackward _ _ _ _ _ _ _) as [dx|]; [|done].
      simpl. intros [= <-]. simpl.
      repeat split; try done; intros; by rewrite lookup_insert_ne.
    + unfold deref_mask. destruct (m_mask st) as [M|] eqn:Hmask; [| done].
      simpl.
      destruct (Hadamard _ M M _) as [[M' h1]|] eqn:HH; [| done]. simpl.
      destruct (Axpy _ _ _ _) as [h2|] eqn:HA; [| done]. simpl.
      intros [= <-]. simpl.
      apply Hadamard_in_place_Ok in HH as [-> HfH].
      pose proof (Axpy_Ok _ _ _ _ _ HA) as HfA.
      repeat split; try done.
      * intros l Hl HM. rewrite HfA by done. apply HfH. by apply HM.
      * by intros [? | ?].
Qed.

Lemma bp_compute_frame_witness :
  exists st',
    bp_compute (example_layer training false (1 # 2)) = Ok st' /\
    memory st' !! 0%nat = Some [3; 4] /\
    m_mask st' = Some (owner 1 2 4) /\
    get_fast_generator st' = gen_alternating.
Proof.
  assert (Hrun : exists st',
            bp_compute (example_layer training false (1 # 2)) = Ok st').
  { eexists. vm_compute. reflexivity. }
  destruct Hrun as [st' Hrun]. exists st'. split; [exact Hrun |].
  destruct (bp_compute_frame _ _ Hrun) as (Hframe & _ & Hmask & Hgen & _).
  split; [| by split].
  etrans; [apply (Hframe 0%nat) | reflexivity]; [discriminate |].
  intros M [= <-]. discriminate.
Defined.

(** ** The dropout layer on the accelerator *)

Lemma ceil_div_enough (size d : nat) :
  (0 < d)%nat -> (size <= (size + d - 1) / d * d)%nat.
Proof.
  intros Hd.
  pose proof (Nat.div_mod_eq (size + d - 1) d) as E.
  pose proof (Nat.mod_upper_bound (size + d - 1) d ltac:(lia)) as B.
  nia.
Qed.

Lemma Resize_Ok (height width : nat) (A A' : Matrix) (h h' : heap) :
  Resize height width A h = Ok (A', h') ->
  Height A' = height /\ Width A' = width /\ Buffer A' = Buffer A /\
  viewType A' = viewType A /\
  (forall l, l ≠ Buffer A -> h' !! l = h !! l).
Proof.
  unfold Resize.
  destruct ((Height A =? height)%nat && (Width A =? width)%nat) eqn:Hsame.
  - intros [= <- <-]. apply andb_true_iff in Hsame as [Hh Hw].
    apply Nat.eqb_eq in Hh, Hw. done.
  - destruct (Viewing A); [done |]. unfold LockedBuffer.
    destruct (h !! Buffer A) as [l0|]; [| done]. simpl.
    intros [= <- <-]. simpl.
    repeat split; try done. intros l Hl. by rewrite lookup_insert_ne.
Qed.

Lemma fp_compute_gpu_enabled (st st' : dropout) :
  dropout_disabled st = false ->
  (Height (get_prev_activations st) <? 1)%nat
    && (Width (get_prev_activations st) <? 1)%nat = false ->
  fp_compute_gpu st = Ok st' ->
  let input := get_prev_activations st in
  let output := get_activations st in
  let xdesc := Some (tensor_desc_of input) in
  let ydesc := Some (tensor_desc_of output) in
  exists cudnn size reserve h1 x states y space states',
    m_cudnn st = Some cudnn /\
    cudnnDropoutGetReserveSpaceSize cudnn xdesc = Ok size /\
    (if (Height (m_reserve_space st) * sizeof_DataType <? size)%nat
     then Resize ((size + sizeof_DataType - 1) / sizeof_DataType) 1
            (m_reserve_space st) (memory st)
     else Ok (m_reserve_space st, memory st)) = Ok (reserve, h1) /\
    h1 !! Buffer input = Some x /\
    Locked output = false /\
    Locked reserve = false /\
    h1 !! Buffer (m_states st) = Some states /\
    cudnnDropoutForward cudnn (m_dropout_cudnn_desc st) states xdesc x ydesc
      (Height reserve * sizeof_DataType) = Ok (y, space, states') /\
    st' = record_call
            (DropoutForward_call xdesc (Buffer input) ydesc (Buffer output))
            (set_reserve_space reserve
               (set_fp_descs xdesc ydesc
                  (set_memory
                     (<[Buffer (m_states st) := states']>
                        (<[Buffer reserve := space]>
                           (<[Buffer output := y]> h1))) st))).
Proof.
  intros Hen Hne. unfold fp_compute_gpu. rewrite Hen, Hne.
  unfold get_handle, LockedBuffer, MutableBuffer, set_tensor_desc.
  destruct (m_cudnn st) as [cudnn|]; [|done]. simpl.
  destruct (cudnnDropoutGetReserveSpaceSize _ _) as [size|] eqn:Hsize;
    [|done]. simpl.
  destruct (if (_ <? size)%nat then _ else _) as [[reserve h1]|] eqn:Hres;
    [|done]. simpl.
  destruct (h1 !! Buffer (get_prev_activations st)) as [x|] eqn:Hx; [|done].
  simpl.
  destruct (Locked (get_activations st)) eqn:HLo; [done |]. simpl.
  destruct (Locked reserve) eqn:HLr; [done |]. simpl.
  destruct (h1 !! Buffer (m_states st)) as [states|] eqn:Hs; [|done]. simpl.
  destruct (cudnnDropoutForward _ _ _ _ _ _ _) as [[[y space] states']|]
    eqn:Hk; [|done].
  simpl. intros [= <-].
  by exists cudnn, size, reserve, h1, x, states, y, space, states'.
Qed.

Lemma reserve_grown (st : dropout) (size : nat) (reserve : Matrix)
    (h1 : heap) :
  (if (Height (m_reserve_space st) * sizeof_DataType <? size)%nat
   then Resize ((size + sizeof_DataType - 1) / sizeof_DataType) 1
          (m_reserve_space st) (memory st)
   else Ok (m_reserve_space st, memory st)) = Ok (reserve, h1) ->
  (size <= Height reserve * sizeof_DataType)%nat /\
  (Height (m_reserve_space st) <= Height reserve)%nat /\
  Buffer reserve = Buffer (m_reserve_space st) /\
  (forall l, l ≠ Buffer (m_reserve_space st) -> h1 !! l = memory st !! l).
Proof.
  destruct (_ <? size)%nat eqn:Hlt.
  - intros (Hh & _ & Hb & _ & Hframe)%Resize_Ok.
    apply Nat.ltb_lt in Hlt.
    pose proof (ceil_div_enough size sizeof_DataType
                  ltac:(unfold sizeof_DataType; lia)) as Hc.
    rewrite Hh. repeat split; try done.
    unfold sizeof_DataType in *. nia.
  - intros [= <- <-]. apply Nat.ltb_ge in Hlt. done.
Qed.

(** X8.  An enabled forward pass on the accelerator that returns, on an input
    that is not 0 x 0, has launched exactly one kernel, handing it the
    input's buffer with the descriptor of the input matrix and the output's
    buffer with the descriptor of the output matrix; these two descriptors
    are the ones the layer then holds, and the gradient descriptors are
    untouched. *)
Theorem fp_compute_gpu_launch (st st' : dropout) :
  dropout_disabled st = false ->
  (Height (get_prev_activations st) <? 1)%nat
    && (Width (get_prev_activations st) <? 1)%nat = false ->
  fp_compute_gpu st = Ok st' ->
  let input := get_prev_activations st in
  let output := get_activations st in
  cudnn_calls st'
  = DropoutForward_call (Some (tensor_desc_of input)) (Buffer input)
      (Some (tensor_desc_of output)) (Buffer output) :: cudnn_calls st /\
  m_input_cudnn_desc st' = Some (tensor_desc_of input) /\
  m_output_cudnn_desc st' = Some (tensor_desc_of output) /\
  m_gradient_wrt_output_cudnn_desc st' = m_gradient_wrt_output_cudnn_desc st /\
  m_gradient_wrt_input_cudnn_desc st' = m_gradient_wrt_input_cudnn_desc st /\
  get_activations st' = output /\
  get_prev_activations st' = input.
Proof.
  intros Hen Hne Hrun.
  destruct (fp_compute_gpu_enabled st st' Hen Hne Hrun)
    as (cudnn & size & reserve & h1 & x & states & y & space & states' &
        _ & _ & _ & _ & _ & _ & _ & _ & ->).
  done.
Qed.

Lemma example_fp_gpu_runs : exists st', fp_compute_gpu example_gpu = Ok st'.
Proof. eexists. vm_compute. reflexivity. Qed.

Lemma fp_compute_gpu_launch_witness :
  exists st',
    fp_compute_gpu example_gpu = Ok st' /\
    cudnn_calls st'
    = [DropoutForward_call (Some (tensor_desc_of (owner 1 2 0))) 0%nat
         (Some (tensor_desc_of (owner 1 2 1))) 1%nat].
Proof.
  destruct example_fp_gpu_runs as [st' Hrun].
  exists st'. split; [exact Hrun |].
  by destruct (fp_compute_gpu_launch example_gpu st' eq_refl eq_refl Hrun) as (-> & _).
Defined.



(** X10.  An enabled or disabled forward pass on the accelerator that returns
    has changed at most the buffers of the output, the reserve space and the
    generator states of the accelerator; it leaves the host mask handle, the
    host generator, both gradient handles, the dropout descriptor and the
    states handle as they were. *)
Theorem fp_compute_gpu_frame (st st' : dropout) :
  fp_compute_gpu st = Ok st' ->
  (forall l,
     l ≠ Buffer (get_activations st) ->
     l ≠ Buffer (m_reserve_space st) ->
     l ≠ Buffer (m_states st) ->
     memory st' !! l = memory st !! l) /\
  m_mask st' = m_mask st /\
  get_fast_generator st' = get_fast_generator st /\
  get_prev_error_signals st' = get_prev_error_signals st /\
  get_error_signals st' = get_error_signals st /\
  m_dropout_cudnn_desc st' = m_dropout_cudnn_desc st /\
  m_states st' = m_states st.
Proof.
  intros Hrun.
  destruct (dropout_disabled st) eqn:Hen.
  { unfold fp_compute_gpu in Hrun. rewrite Hen in Hrun.
    by injection Hrun as <-. }
  destruct ((Height (get_prev_activations st) <? 1)%nat
            && (Width (get_prev_activations st) <? 1)%nat) eqn:Hne.
  { unfold fp_compute_gpu in Hrun. rewrite Hen, Hne in Hrun.
    by injection Hrun as <-. }
  destruct (fp_compute_gpu_enabled st st' Hen Hne Hrun)
    as (cudnn & size & reserve & h1 & x & states & y & space & states' &
        _ & _ & Hres & _ & _ & _ & _ & _ & ->).
  destruct (reserve_grown st size reserve h1 Hres) as (_ & _ & Hb & Hframe).
  simpl. split; [| done].
  intros l H1 H2 H3. rewrite !lookup_insert_ne; [by apply Hframe | ..];
    try done. by rewrite Hb.
Qed.

Lemma fp_compute_gpu_frame_witness :
  exists st',
    fp_compute_gpu example_gpu = Ok st' /\
    memory st' !! 4%nat = Some [2; 0] /\
    m_mask st' = Some (owner 1 2 4) /\
    get_fast_generator st' = gen_alternating.
Proof.
  destruct example_fp_gpu_runs as [st' Hrun].
  exists st'. split; [exact Hrun |].
  destruct (fp_compute_gpu_frame example_gpu st' Hrun) as (Hframe & Hmask & Hgen & _).
  split; [| by split].
  etrans; [apply (Hframe 4%nat); discriminate | reflexivity].
Defined.



(** X12.  With dropout enabled on the accelerator: the forward pass returns
    at once, changing nothing, when the input is 0 x 0, and the backward pass
    when the input gradient has a zero height or a zero width; but a forward
    pass on an input with only one zero dimension does not return early: if
    it returns, it has launched a kernel. *)
Theorem gpu_empty_guards (st : dropout) :
  dropout_disabled st = false ->
  (Height (get_prev_activations st) = 0%nat ->
   Width (get_prev_activations st) = 0%nat ->
   fp_compute_gpu st = Ok st) /\
  (Height (get_error_signals st) = 0%nat \/
   Width (get_error_signals st) = 0%nat ->
   bp_compute_gpu st = Ok st) /\
  (forall st',
     (0 < Height (get_prev_activations st))%nat \/
     (0 < Width (get_prev_activations st))%nat ->
     fp_compute_gpu st = Ok st' ->
     length (cudnn_calls st') = Datatypes.S (length (cudnn_calls st))).
Proof.
  intros Hen. split; [| split].
  - intros Hh Hw. unfold fp_compute_gpu. by rewrite Hen, Hh, Hw.
  - intros Hz. unfold bp_compute_gpu. rewrite Hen.
    destruct Hz as [-> | ->]; [done |]. by rewrite andb_false_r.
  - intros st' Hpos Hrun.
    assert (Hne : (Height (get_prev_activations st) <? 1)%nat
                  && (Width (get_prev_activations st) <? 1)%nat = false).
    { apply andb_false_iff. rewrite !Nat.ltb_ge. lia. }
    destruct (fp_compute_gpu_enabled st st' Hen Hne Hrun)
      as (cudnn & size & reserve & h1 & x & states & y & space & states' &
          _ & _ & _ & _ & _ & _ & _ & _ & ->).
    done.
Qed.

(** X12 on 0 x 0 matrices. *)
Lemma gpu_empty_guards_witness :
  fp_compute_gpu example_gpu_empty = Ok example_gpu_empty /\
  bp_compute_gpu example_gpu_empty = Ok example_gpu_empty.
Proof.
  destruct (gpu_empty_guards example_gpu_empty eq_refl) as (Hfp & Hbp & _).
  split; [by apply Hfp | apply Hbp; by left].
Defined.

(** ** Setting up the mask *)

Section dropout_setup_properties.

Variable Grid : Type.
Variable regularizer_layer_setup_matrices : Grid -> dropout -> result dropout.

(** X13.  Once the base class's [setup_matrices] has returned with the
    activations allocated (and a previous mask, if any, allocated in a buffer
    of its own), [setup_matrices] gives the layer a mask that owns a newly
    allocated buffer, has the activations' dimensions and holds a copy of
    their entries; the activations keep theirs, the buffer a previous mask
    owned is freed, and every other buffer is unchanged.  This does not
    depend on the keep probability, which it leaves as it was: the mask is
    allocated under the negative sentinel too. *)
Theorem setup_matrices_allocates_mask (grid : Grid) (st st0 : dropout)
    (a : list DataType) :
  regularizer_layer_setup_matrices grid st = Ok st0 ->
  memory st0 !! Buffer (get_activations st0) = Some a ->
  (forall M, m_mask st0 = Some M ->
             is_Some (memory st0 !! Buffer M) /\
             Buffer M ≠ Buffer (get_activations st0)) ->
  exists st' M',
    setup_matrices Grid regularizer_layer_setup_matrices grid st = Ok st' /\
    m_mask st' = Some M' /\
    memory st0 !! Buffer M' = None /\
    memory st' !! Buffer M' = Some a /\
    viewType M' = OWNER /\
    same_dims M' (get_activations st0) = true /\
    memory st' !! Buffer (get_activations st0) = Some a /\
    (forall M, m_mask st0 = Some M -> viewType M = OWNER ->
               memory st' !! Buffer M = None) /\
    (forall l, l ≠ Buffer M' ->
               (forall M, m_mask st0 = Some M -> l ≠ Buffer M) ->
               memory st' !! l = memory st0 !! l) /\
    m_keep_prob st' = m_keep_prob st0.
Proof.
  intros Hbase Ha Hold. unfold setup_matrices, Copy, LockedBuffer.
  rewrite Hbase, bind_Ok, Ha. simpl.
  set (buf := fresh (dom (memory st0))).
  assert (Hfresh : memory st0 !! buf = None).
  { apply (not_elem_of_dom (D := gset nat)). apply is_fresh. }
  assert (Hbuf : forall M, m_mask st0 = Some M -> buf ≠ Buffer M).
  { intros M HM E. destruct (Hold M HM) as [[lm Hlm] _].
    rewrite <- E, Hfresh in Hlm. done. }
  assert (Hrel : forall l,
            (forall M, m_mask st0 = Some M -> l ≠ Buffer M) ->
            release (m_mask st0) (<[buf := a]> (memory st0)) !! l
            = <[buf := a]> (memory st0) !! l).
  { intros l Hl. unfold release. destruct (m_mask st0) as [M|]; [| done].
    destruct (Viewing M); [done |]. rewrite lookup_delete_ne; [done |].
    intros E. by apply (Hl M). }
  eexists _, _. split; [reflexivity |]. simpl.
  split; [reflexivity |]. simpl. fold buf.
  split; [exact Hfresh |].
  split; [by rewrite Hrel, lookup_insert_eq |].
  split; [done |].
  split; [unfold same_dims; simpl; by rewrite !Nat.eqb_refl |].
  split.
  { rewrite Hrel.
    - rewrite lookup_insert_ne; [done |].
      intros E. rewrite E, Ha in Hfresh. done.
    - intros M HM E. destruct (Hold M HM) as [_ Hne]. by apply Hne. }
  split.
  { intros M HM HMown. unfold release, Viewing. rewrite HM, HMown.
    by rewrite lookup_delete_eq. }
  split; [| done].
  intros l Hl HlM. rewrite Hrel by done. by rewrite lookup_insert_ne.
Qed.

End dropout_setup_properties.

(** X13 on a layer built with the negative sentinel. *)
Lemma setup_matrices_allocates_mask_witness :
  exists st' M',
    setup_matrices unit example_base_setup_matrices ()
      (example_layer training false (-1)) = Ok st' /\
    m_keep_prob st' = -1 /\
    m_mask st' = Some M' /\
    example_memory !! Buffer M' = None /\
    memory st' !! Buffer M' = Some [0; 0] /\
    memory st' !! 4%nat = None.
Proof.
  destruct (setup_matrices_allocates_mask unit example_base_setup_matrices ()
              (example_layer training false (-1))
              (example_layer training false (-1)) [0; 0] eq_refl eq_refl)
    as (st' & M' & Hrun & Hmask & Hnew & Hcopy & _ & _ & _ & Hfree & _ & Hp).
  { intros M [= <-]. split; [by eexists | discriminate]. }
  exists st', M'. split; [exact Hrun |]. split; [exact Hp |].
  split; [exact Hmask |]. split; [exact Hnew |]. split; [exact Hcopy |].
  by apply (Hfree (owner 1 2 4)).
Defined.

(** ** The covariance layer's two methods together *)

Section covariance_more.

Variable DataReaderMetaData : Type.
Variable get_type : string.
Variable data_type_layer_setup_dims :
  DataReaderMetaData -> Layer -> Layer * result unit.
Variable data_type_layer_setup_data : nat -> Layer -> Layer * result unit.

Lemma setup_dims_outcome (dr_metadata : DataReaderMetaData)
    (l : covariance_layer) (b : Layer) (p0 p1 : parent_layer)
    (rest : list parent_layer) :
  data_type_layer_setup_dims dr_metadata (base l) = (b, Ok ()) ->
  get_parent_layers b = p0 :: p1 :: rest ->
  exists r,
    setup_dims DataReaderMetaData get_type data_type_layer_setup_dims
      dr_metadata l = (after_setup_dims b l, r) /\
    (parent_output_dims p0 = parent_output_dims p1 -> r = Ok ()) /\
    (parent_output_dims p0 ≠ parent_output_dims p1 ->
     exists msg, r = Error msg).
Proof.
  intros Hbase Hps. destruct b as [name parents dims dist].
  simpl in Hps. subst parents. unfold after_setup_dims. simpl.
  set (l' := {| base := _; m_means := _; m_workspace := _ |}).
  assert (Hrun : forall k : list Z -> list Z -> layer_op unit,
            (_ ← call_base (data_type_layer_setup_dims dr_metadata);
             _ ← set_output_dims [1%Z];
             dims0 ← get_input_dims 0;
             dims1 ← get_input_dims 1;
             k dims0 dims1) l
            = k (parent_output_dims p0) (parent_output_dims p1) l').
  { intros k. unfold mbind, layer_op_bind, call_base, set_output_dims,
      get_input_dims.
    rewrite Hbase. reflexivity. }
  unfold setup_dims. rewrite Hrun.
  destruct (decide (parent_output_dims p0 ≠ parent_output_dims p1))
    as [Hne|He].
  - unfold mbind at 1, layer_op_bind at 1, this_get_name. cbn beta iota.
    unfold mbind at 1, layer_op_bind at 1, get_num_parents. cbn beta iota.
    unfold mbind at 1, layer_op_bind at 1.
    rewrite write_parents_text. cbn beta iota. unfold LBANN_ERROR.
    eexists. split; [reflexivity |].
    split; [intros E; by destruct Hne | by eexists].
  - exists (Ok ()). split; [reflexivity |]. split; [done |].
    intros Hne. by destruct He.
Qed.

(** X14.  [setup_dims] compares the shapes of the first two parents only:
    when these agree it returns normally even though a later parent has
    another shape. *)
Theorem setup_dims_ignores_later_parents
    (dr_metadata : DataReaderMetaData) (l : covariance_layer) (b : Layer)
    (p0 p1 p : parent_layer) (rest : list parent_layer) :
  data_type_layer_setup_dims dr_metadata (base l) = (b, Ok ()) ->
  get_parent_layers b = p0 :: p1 :: rest ->
  parent_output_dims p0 = parent_output_dims p1 ->
  p ∈ rest ->
  parent_output_dims p ≠ parent_output_dims p0 ->
  setup_dims DataReaderMetaData get_type data_type_layer_setup_dims
    dr_metadata l = (after_setup_dims b l, Ok ()).
Proof.
  intros Hbase Hps Heq _ _.
  destruct (setup_dims_outcome dr_metadata l b p0 p1 rest Hbase Hps)
    as (r & -> & Hok & _).
  by rewrite Hok.
Qed.

(** X15.  [setup_dims] followed by [setup_data]: when the first two parents'
    shapes differ the sequence raises in [setup_dims] and the layer is left
    without [setup_data] having run, its auxiliary matrices as they were;
    when they agree and the base class's [setup_data] returns, both
    auxiliary matrices are instantiated with the same distribution, the
    input's with the column distribution replaced by [STAR]. *)
Theorem setup_dims_then_setup_data (dr_metadata : DataReaderMetaData)
    (max_mini_batch_size : nat) (l : covariance_layer) (b b2 : Layer)
    (p0 p1 : parent_layer) (rest : list parent_layer) :
  data_type_layer_setup_dims dr_metadata (base l) = (b, Ok ()) ->
  get_parent_layers b = p0 :: p1 :: rest ->
  data_type_layer_setup_data max_mini_batch_size
    (base (after_setup_dims b l)) = (b2, Ok ()) ->
  let setup :=
    (_ ← setup_dims DataReaderMetaData get_type data_type_layer_setup_dims
           dr_metadata;
     setup_data data_type_layer_setup_data max_mini_batch_size) in
  let dist_data :=
    {| colDist := STAR; rowDist := rowDist (prev_activations_DistData b2) |} in
  (parent_output_dims p0 ≠ parent_output_dims p1 ->
   exists msg, setup l = (after_setup_dims b l, Error msg)) /\
  (parent_output_dims p0 = parent_output_dims p1 ->
   setup l = ({| base := b2; m_means := Some dist_data;
                 m_workspace := Some dist_data |}, Ok ())).
Proof.
  intros Hbase Hps Hdata setup dist_data.
  destruct (setup_dims_outcome dr_metadata l b p0 p1 rest Hbase Hps)
    as (r & Hrun & Hok & Herr).
  split.
  - intros Hne. destruct (Herr Hne) as [msg ->]. exists msg.
    unfold setup, mbind at 1, layer_op_bind at 1. by rewrite Hrun.
  - intros Heq. rewrite (Hok Heq) in Hrun.
    unfold setup, mbind at 1, layer_op_bind at 1. rewrite Hrun.
    by apply setup_data_allocates.
Qed.

(** X16.  When the base class's method raises, the layer's method raises the
    same message and does nothing of its own: [setup_dims] does not set the
    output shape, [setup_data] instantiates no auxiliary matrix. *)
Theorem base_failure_propagates (dr_metadata : DataReaderMetaData)
    (max_mini_batch_size : nat) (l : covariance_layer) (b b' : Layer)
    (msg msg' : string) :
  data_type_layer_setup_dims dr_metadata (base l) = (b, Error msg) ->
  data_type_layer_setup_data max_mini_batch_size (base l) = (b', Error msg') ->
  setup_dims DataReaderMetaData get_type data_type_layer_setup_dims
    dr_metadata l
  = ({| base := b; m_means := m_means l; m_workspace := m_workspace l |},
     Error msg) /\
  setup_data data_type_layer_setup_data max_mini_batch_size l
  = ({| base := b'; m_means := m_means l; m_workspace := m_workspace l |},
     Error msg').
Proof.
  intros Hdims Hdata.
  unfold setup_dims, setup_data, mbind, layer_op_bind, call_base.
  by rewrite Hdims, Hdata.
Qed.

End covariance_more.

(** X14 below parents of shapes 4 x 4, 4 x 4 and 7. *)
Lemma setup_dims_ignores_later_parents_witness :
  exists l',
    setup_dims unit "covariance" example_base_setup_dims ()
      example_covariance3 = (l', Ok ()) /\
    get_output_dims (base l') = [1%Z].
Proof.
  exists (after_setup_dims
            (fst (example_base_setup_dims () (base example_covariance3)))
            example_covariance3).
  split; [| reflexivity].
  apply (setup_dims_ignores_later_parents unit "covariance"
           example_base_setup_dims () example_covariance3 _ _ _
           {| parent_name := "c"; parent_output_dims := [7]%Z |} _
           eq_refl eq_refl eq_refl).
  - apply list_elem_of_singleton. reflexivity.
  - discriminate.
Defined.

(** X15 below parents of shapes 4 x 4 and 4 x 5, and 4 x 4 and 4 x 4. *)
Lemma setup_dims_then_setup_data_witness :
  (exists l' msg,
     (_ ← setup_dims unit "covariance" example_base_setup_dims ();
      setup_data example_base_setup_data 8) (example_covariance [4; 5]%Z)
     = (l', Error msg) /\
     m_means l' = None /\ m_workspace l' = None) /\
  (exists l',
     (_ ← setup_dims unit "covariance" example_base_setup_dims ();
      setup_data example_base_setup_data 8) (example_covariance [4; 4]%Z)
     = (l', Ok ()) /\
     m_means l' = Some {| colDist := STAR; rowDist := VC |} /\
     m_workspace l' = Some {| colDist := STAR; rowDist := VC |}).
Proof.
  split.
  - destruct (setup_dims_then_setup_data unit "covariance"
                example_base_setup_dims example_base_setup_data () 8
                (example_covariance [4; 5]%Z) _ _ _ _ _
                eq_refl eq_refl eq_refl) as [Hdiff _].
    destruct (Hdiff ltac:(discriminate)) as [msg Hrun].
    eexists _, msg. split; [exact Hrun |]. by split.
  - destruct (setup_dims_then_setup_data unit "covariance"
                example_base_setup_dims example_base_setup_data () 8
                (example_covariance [4; 4]%Z) _ _ _ _ _
                eq_refl eq_refl eq_refl) as [_ Hsame].
    eexists. split; [exact (Hsame eq_refl) |]. by split.
Defined.

(** X16 with a base class that raises. *)
Lemma base_failure_propagates_witness :
  setup_dims unit "covariance" (failing_base "no parents") ()
    (example_covariance [4; 5]%Z)
  = (example_covariance [4; 5]%Z, Error "no parents") /\
  setup_data (failing_base "no grid") 8 (example_covariance [4; 5]%Z)
  = (example_covariance [4; 5]%Z, Error "no grid").
Proof.
  apply (base_failure_propagates unit "covariance" (failing_base "no parents")
           (failing_base "no grid") () 8 (example_covariance [4; 5]%Z)
           _ _ _ _ eq_refl eq_refl).
Defined.
